(** * Venue Scout: the crowd-level estimation and alert pipeline

    A shallow embedding of the scoring helpers shared by [app/page.tsx] and
    [app/v/[slug]/page.tsx], of the report route ([api/report]), of the
    subscribe route ([api/alerts/subscribe]) and of the alert run route
    ([api/alerts/run]).

    Conventions of the embedding.
    - A JavaScript [number] that carries a measurement (score, weight, age in
      minutes, running mean) is a real number; IEEE rounding is not modelled.
    - A JavaScript [number] that is integral by construction (a status, a
      threshold, a count, the result of [Math.round] or [Math.ceil], an epoch
      time in milliseconds) is an integer of [Z].
    - An ISO timestamp string is represented by the value [new Date(s).getTime()]
      gives for it: milliseconds since the epoch.
    - [Date.now()] is an argument of the function that reads it. *)

From Stdlib Require Import Reals Lra Lia ZArith List.
From stdpp Require Import gmap strings.
Import ListNotations.

(** ** The fragment of JavaScript's [Math] and comparison operators in use *)

Module JsMath.

(** [Math.round(x)]: the integer nearest to [x], ties towards +infinity. *)
Definition round (x : R) : Z := Int_part (x + / 2).

(** [Math.ceil(x)]. *)
Definition ceil (x : R) : Z := (- Int_part (- x))%Z.

(** [Math.abs(x)] on a real. *)
Definition abs (x : R) : R := Rabs x.

(** [x < y] and [x <= y] on reals, as truth values. *)
Definition ltb (x y : R) : bool := if Rlt_dec x y then true else false.
Definition leb (x y : R) : bool := if Rle_dec x y then true else false.

End JsMath.

Declare Scope js_scope.
Delimit Scope js_scope with js.
Notation "x <! y" := (JsMath.ltb x%R y%R) (at level 70, no associativity) : js_scope.
Notation "x <=! y" := (JsMath.leb x%R y%R) (at level 70, no associativity) : js_scope.
Notation "x >! y" := (JsMath.ltb y%R x%R)
  (at level 70, no associativity, only parsing) : js_scope.
Notation "x >=! y" := (JsMath.leb y%R x%R)
  (at level 70, no associativity, only parsing) : js_scope.
Open Scope js_scope.

(** ** Labels, confidence levels and trends *)

Inductive CrowdLabel := Low | Medium | High | Insane.

Module Confidence.
Inductive t := Low | Medium | High.
End Confidence.

Inductive Trend := Up | Down | Flat | Unknown.

(** A report as the scorer sees it: [{ status: number; created_at: string }]. *)
Record Report := { status : Z; created_at : Z }.

(** ** Scoring helpers (app/page.tsx, app/v/[slug]/page.tsx, api/alerts/run) *)

Module Scoring.

Definition labelFromScore (score : R) : CrowdLabel :=
  if score <! 1.6 then Low
  else if score <! 2.4 then Medium
  else if score <! 3.2 then High
  else Insane.

Definition labelToNumber (label : CrowdLabel) : Z :=
  match label with
  | Low => 1
  | Medium => 2
  | High => 3
  | Insane => 4
  end.

(** [(now - new Date(created_at).getTime()) / 60000]. *)
Definition ageMinOf (now createdAt : Z) : R := (IZR (now - createdAt) / 60000)%R.

(** [Math.exp(-ageMin / 30)]. *)
Definition baseWeightOf (ageMin : R) : R := exp (- ageMin / 30).

Definition confidenceFrom (now : Z) (latestCreatedAt : option Z) (reportCount : Z)
  : Confidence.t :=
  match latestCreatedAt with
  | None => Confidence.Low
  | Some latest =>
      let ageMin := Z.max 0 (JsMath.round (ageMinOf now latest)) in
      if ((ageMin <=? 10) && (reportCount >=? 3))%Z then Confidence.High
      else if ((ageMin <=? 25) && (reportCount >=? 2))%Z then Confidence.Medium
      else Confidence.Low
  end.

(** The first loop of [computeDecayedScore]: the pair
    [(quickWeightSum, quickScoreSum)] after the reports still to visit. *)
Fixpoint quickSums (now : Z) (reports : list Report) (acc : R * R) : R * R :=
  match reports with
  | [] => acc
  | r :: rest =>
      let ageMin := ageMinOf now (created_at r) in
      if ageMin <=! 30 then
        let w := baseWeightOf ageMin in
        quickSums now rest (fst acc + w, snd acc + w * IZR (status r))%R
      else quickSums now rest acc
  end.

Definition consensusOf (now : Z) (reports : list Report) : Z :=
  if (0 <? Z.of_nat (length reports))%Z then
    let '(quickWeightSum, quickScoreSum) := quickSums now reports (0, 0)%R in
    if quickWeightSum >! 0 then JsMath.round (quickScoreSum / quickWeightSum)
    else 2%Z
  else 2%Z.

Definition outlierMultiplier (st consensusNum : Z) : R :=
  let diff := Z.abs (st - consensusNum) in
  if (diff >=? 2)%Z then 0.25%R else 1.0%R.

(** The weight [w] a report gets in the second loop. *)
Definition dampedWeight (now consensusNum : Z) (r : Report) : R :=
  let ageMin := ageMinOf now (created_at r) in
  let baseWeight := baseWeightOf ageMin in
  (baseWeight * outlierMultiplier (status r) consensusNum)%R.

(** The second loop: the pair [(weightSum, scoreSum)]. *)
Fixpoint dampedSums (now consensusNum : Z) (reports : list Report) (acc : R * R)
  : R * R :=
  match reports with
  | [] => acc
  | r :: rest =>
      let w := dampedWeight now consensusNum r in
      dampedSums now consensusNum rest (fst acc + w, snd acc + w * IZR (status r))%R
  end.

Definition computeDecayedScore (now : Z) (reports : list Report) : R :=
  let consensusNum := consensusOf now reports in
  let '(weightSum, scoreSum) := dampedSums now consensusNum reports (0, 0)%R in
  if weightSum >! 0 then (scoreSum / weightSum)%R else 2%R.

(** [computeTrend] reads the clock itself ([now]) and so does each of its
    two calls of the scorer ([nowCurrent], [nowPrevious]). *)
Definition computeTrend (now nowCurrent nowPrevious : Z) (reports : list Report)
  : Trend :=
  let currentWindow :=
    List.filter (fun r => ageMinOf now (created_at r) <=! 30) reports in
  let previousWindow :=
    List.filter (fun r => (ageMinOf now (created_at r) >! 30)
                          && (ageMinOf now (created_at r) <=! 90)) reports in
  if ((Z.of_nat (length currentWindow) <? 2)
      || (Z.of_nat (length previousWindow) <? 2))%Z then Unknown
  else
    let currentScore := computeDecayedScore nowCurrent currentWindow in
    let previousScore := computeDecayedScore nowPrevious previousWindow in
    let diff := (currentScore - previousScore)%R in
    if diff >=! 0.25 then Up
    else if diff <=! -0.25 then Down
    else Flat.

(** The local [blended] of [predictLabel]. *)
Definition blended (currentScore : R) (baselineScore : option R) : R :=
  match baselineScore with
  | None => currentScore
  | Some baseline => (0.55 * baseline + 0.45 * currentScore)%R
  end.

Definition predictLabel (currentScore : R) (baselineScore : option R) : CrowdLabel :=
  labelFromScore (blended currentScore baselineScore).

End Scoring.

(** ** Stored rows *)

(** A row of the [reports] table. *)
Module ReportRow.
Record t := {
  venue_id : string;
  status : Z;
  line_outside : bool;
  device_id : string;
  created_at : Z
}.
End ReportRow.

(** A row of the [venue_baselines] table, keyed by [(venue_id, dow, hour)]. *)
Module Baseline.
Record t := { mean_score : R; n : Z }.
End Baseline.

(** A row of the [alert_subscriptions] table. *)
Module Sub.
Record t := {
  id : string;
  venue_id : string;
  device_id : string;
  threshold : Z;
  active : bool;
  created_at : Z;
  last_triggered_at : option Z
}.

Definition sameTriple (venue device : string) (thresh : Z) (s : t) : bool :=
  bool_decide (venue_id s = venue) && bool_decide (device_id s = device)
  && (threshold s =? thresh)%Z.
End Sub.

(** ** The report route (api/report): guardrails, insert, baseline update

    The storage collaborator is assumed to answer every query; its failure
    paths (the 500 responses) are not part of the model. *)

Module ReportApi.

Record Body := {
  venue_id : string;
  status : Z;
  line_outside : bool;
  device_id : string
}.

Record Db := {
  reports : list ReportRow.t;
  venue_baselines : gmap (string * Z * Z) Baseline.t
}.

Inductive Response :=
| Accepted                      (* 200 { ok: true } *)
| Missing                       (* 400 Missing venue_id, status, or device_id *)
| InvalidStatus                 (* 400 Invalid status *)
| SlowDown (wait : Z)           (* 429 Slow down, report again in ~wait min *)
| DailyLimit.                   (* 429 Daily limit reached *)

Definition minutesBetween (a b : Z) : R := (JsMath.abs (IZR (a - b)) / 60000)%R.

(** [order("created_at", desc).limit(1).maybeSingle()] over the device's
    reports for the venue: the greatest [created_at], if any. *)
Definition lastCreatedAt (rows : list ReportRow.t) (venue device : string) : option Z :=
  match
    List.filter (fun r => bool_decide (ReportRow.venue_id r = venue)
                          && bool_decide (ReportRow.device_id r = device)) rows
  with
  | [] => None
  | r :: rest => Some (fold_left Z.max (map ReportRow.created_at rest) (ReportRow.created_at r))
  end.

(** Guardrail A on the age of the device's last report for the venue:
    [Some wait] when the submission is refused. *)
Definition cooldownWait (now : Z) (last : option Z) : option Z :=
  match last with
  | None => None
  | Some createdAt =>
      let ageMin := minutesBetween now createdAt in
      if ageMin <! 10 then Some (Z.max 1 (JsMath.ceil (10 - ageMin)))
      else None
  end.

(** The [count] of Guardrail B: the device's reports since [startOfDay]. *)
Definition countSince (rows : list ReportRow.t) (device : string) (startOfDay : Z) : Z :=
  Z.of_nat (length (List.filter
    (fun r => bool_decide (ReportRow.device_id r = device)
              && (ReportRow.created_at r >=? startOfDay)%Z) rows)).

(** The running mean of the bucket after one more report of status [s]:
    [prevMean], [prevN], [nextN] and [nextMean] of the route. *)
Definition nextBaseline (baseline : option Baseline.t) (s : Z) : Baseline.t :=
  let prevMean := from_option Baseline.mean_score 2.0%R baseline in
  let prevN := from_option Baseline.n 0%Z baseline in
  let nextN := (prevN + 1)%Z in
  let nextMean := ((prevMean * IZR prevN + IZR s) / IZR nextN)%R in
  {| Baseline.mean_score := nextMean; Baseline.n := nextN |}.

Section Route.
(** The (day-of-week, hour) of an instant in America/Detroit, computed by
    [Intl.DateTimeFormat] in the source. *)
Variable getDowHourDetroit : Z -> Z * Z.
(** The server's local midnight before an instant ([setHours(0,0,0,0)]). *)
Variable startOfDayOf : Z -> Z.

(** The route reads the clock for the age of the last report, for the start
    of the day and for the bucket, and the store dates the inserted row; the
    four readings of one request are taken to be the one instant [now]. A
    field absent from the body is represented by its falsy value, the empty
    string or 0. *)
Definition POST (now : Z) (db : Db) (body : Body) : Response * Db :=
  if bool_decide (venue_id body = "") || (status body =? 0)%Z
     || bool_decide (device_id body = "")
  then (Missing, db)
  else
    let s := status body in
    if negb (bool_decide (s ∈ [1; 2; 3; 4]%Z)) then (InvalidStatus, db)
    else
      let device := device_id body in
      match cooldownWait now (lastCreatedAt (reports db) (venue_id body) device) with
      | Some wait => (SlowDown wait, db)
      | None =>
          if (countSince (reports db) device (startOfDayOf now) >=? 20)%Z
          then (DailyLimit, db)
          else
            let row := {| ReportRow.venue_id := venue_id body;
                          ReportRow.status := s;
                          ReportRow.line_outside := line_outside body;
                          ReportRow.device_id := device;
                          ReportRow.created_at := now |} in
            let '(dow, hour) := getDowHourDetroit now in
            let key := (venue_id body, dow, hour) in
            let next := nextBaseline (venue_baselines db !! key) s in
            (Accepted,
             {| reports := reports db ++ [row];
                venue_baselines := <[key := next]> (venue_baselines db) |})
      end.
End Route.

End ReportApi.

(** ** The subscribe route (api/alerts/subscribe) *)

Module SubscribeApi.

Record Body := { venue_id : string; device_id : string; threshold : Z }.

Inductive Response :=
| Subscribed                    (* 200 { ok: true } *)
| BadRequest                    (* 400: a field is missing or the threshold is not 1 or 2 *)
| ServerError.                  (* 500: the store refused the select, update or insert *)

(** What [maybeSingle()] makes of the rows a select matched. *)
Inductive Single (A : Type) :=
| NoRow
| OneRow (row : A)
| ManyRows.
Arguments NoRow {A}.
Arguments OneRow {A} row.
Arguments ManyRows {A}.

Definition maybeSingle {A} (rows : list A) : Single A :=
  match rows with
  | [] => NoRow
  | [row] => OneRow row
  | _ => ManyRows
  end.

(** [update({ active: true }).eq("id", i)]. *)
Definition activate (i : string) (table : list Sub.t) : list Sub.t :=
  map (fun s =>
         if bool_decide (Sub.id s = i) then
           {| Sub.id := Sub.id s; Sub.venue_id := Sub.venue_id s;
              Sub.device_id := Sub.device_id s; Sub.threshold := Sub.threshold s;
              Sub.active := true; Sub.created_at := Sub.created_at s;
              Sub.last_triggered_at := Sub.last_triggered_at s |}
         else s) table.

(** [insert(row)]: with the schema's [UNIQUE(venue_id, device_id, threshold)]
    in force the store refuses a second row for a triple; the route is
    written to run without the constraint too. *)
Definition insert (uniqueSubscription : bool) (row : Sub.t) (table : list Sub.t)
  : option (list Sub.t) :=
  if uniqueSubscription
     && existsb (Sub.sameTriple (Sub.venue_id row) (Sub.device_id row)
                                (Sub.threshold row)) table
  then None
  else Some (table ++ [row]).

(** [newId] and [now] are the defaults the store gives the columns [id]
    and [created_at] of an inserted row. A field absent from the body is
    represented by its falsy value, the empty string or 0. *)
Definition POST (uniqueSubscription : bool) (newId : string) (now : Z)
    (table : list Sub.t) (body : Body) : Response * list Sub.t :=
  if bool_decide (venue_id body = "") || bool_decide (device_id body = "")
     || (threshold body =? 0)%Z
  then (BadRequest, table)
  else
    let thresh := threshold body in
    if negb (bool_decide (thresh ∈ [1; 2]%Z)) then (BadRequest, table)
    else
      let deviceIdStr := device_id body in
      match
        maybeSingle
          (List.filter (fun s => Sub.sameTriple (venue_id body) deviceIdStr thresh s
                                 && Sub.active s) table)
      with
      | ManyRows => (ServerError, table)
      | OneRow existing => (Subscribed, activate (Sub.id existing) table)
      | NoRow =>
          match
            insert uniqueSubscription
              {| Sub.id := newId; Sub.venue_id := venue_id body;
                 Sub.device_id := deviceIdStr; Sub.threshold := thresh;
                 Sub.active := true; Sub.created_at := now;
                 Sub.last_triggered_at := None |} table
          with
          | None => (ServerError, table)
          | Some table' => (Subscribed, table')
          end
      end.

(** The rows of a table that belong to a triple. *)
Definition rowsOf (venue device : string) (thresh : Z) (table : list Sub.t)
  : list Sub.t :=
  List.filter (Sub.sameTriple venue device thresh) table.

End SubscribeApi.

(** ** The alert run route (api/alerts/run) *)

Module AlertsRun.

Record Db := {
  alert_subscriptions : list Sub.t;
  venues : list (string * string);          (* (id, name) *)
  reports : list ReportRow.t
}.

(** What one firing does to the outside world, in order. *)
Inductive Effect :=
| ConsoleLog (venueName : string) (label : CrowdLabel) (device : string)
| UpdateLastTriggered (subId : string) (stamp : Z).

Record Response := { processed : Z; triggered : Z }.

(** The clock readings of one loop iteration: [Date.now()] inside the
    scorer and [new Date()] of the update. *)
Record Readings := { score_now : Z; stamp_now : Z }.

(** [order("created_at", { ascending: false })]. *)
Fixpoint insertDesc (r : ReportRow.t) (rows : list ReportRow.t) : list ReportRow.t :=
  match rows with
  | [] => [r]
  | x :: rest =>
      if (ReportRow.created_at x <? ReportRow.created_at r)%Z then r :: x :: rest
      else x :: insertDesc r rest
  end.

Definition orderDesc (rows : list ReportRow.t) : list ReportRow.t := foldr insertDesc [] rows.

(** The bulk query for the reports of the last 3 hours. *)
Definition recentReports (sinceNow : Z) (venueIds : list string) (rows : list ReportRow.t)
  : list ReportRow.t :=
  let since := (sinceNow - 3 * 60 * 60 * 1000)%Z in
  take 2000 (orderDesc (List.filter
    (fun r => bool_decide (ReportRow.venue_id r ∈ venueIds)
              && (ReportRow.created_at r >=? since)%Z) rows)).

(** [new Map(venues.map(v => [v.id, v.name]))]. *)
Definition venueMapOf (vs : list (string * string)) : gmap string string :=
  fold_left (fun m v => <[v.1 := v.2]> m) vs ∅.

(** The grouping loop: each report is pushed on its venue's array. *)
Definition groupByVenue (rows : list ReportRow.t) : gmap string (list Report) :=
  fold_left
    (fun m r =>
       let arr := default [] (m !! ReportRow.venue_id r) in
       <[ReportRow.venue_id r :=
           arr ++ [{| status := ReportRow.status r; created_at := ReportRow.created_at r |}]]> m)
    rows ∅.

Definition inCooldown (now : Z) (sub : Sub.t) : bool :=
  match Sub.last_triggered_at sub with
  | Some lastTriggered =>
      let minutesSinceTriggered := (IZR (now - lastTriggered) / 60000)%R in
      minutesSinceTriggered <! 60
  | None => false
  end.

Definition shouldTrigger (threshold labelNum : Z) : bool :=
  if (threshold =? 2)%Z then (labelNum <=? 2)%Z
  else if (threshold =? 1)%Z then (labelNum =? 1)%Z
  else false.

Record State := { count : Z; trace : list Effect }.

(** The body of the loop over the subscriptions. *)
Definition step (now : Z) (rd : Readings)
    (reportsByVenue : gmap string (list Report)) (venueMap : gmap string string)
    (sub : Sub.t) (st : State) : State :=
  if inCooldown now sub then st
  else
    let venueReports := default [] (reportsByVenue !! Sub.venue_id sub) in
    let score := Scoring.computeDecayedScore (score_now rd) venueReports in
    let label := Scoring.labelFromScore score in
    let labelNum := Scoring.labelToNumber label in
    if negb (shouldTrigger (Sub.threshold sub) labelNum) then st
    else
      let venueName := default "Unknown venue" (venueMap !! Sub.venue_id sub) in
      {| count := count st + 1;
         trace := trace st ++ [ConsoleLog venueName label (Sub.device_id sub);
                               UpdateLastTriggered (Sub.id sub) (stamp_now rd)] |}.

Fixpoint loop (now : Z) (clock : nat -> Readings) (i : nat)
    (reportsByVenue : gmap string (list Report)) (venueMap : gmap string string)
    (subs : list Sub.t) (st : State) : State :=
  match subs with
  | [] => st
  | sub :: rest =>
      loop now clock (S i) reportsByVenue venueMap rest
           (step now (clock i) reportsByVenue venueMap sub st)
  end.

(** [sinceNow] is the reading that dates the report query, [now] the one
    taken before the loop, [clock i] those of the [i]-th iteration. *)
Definition POST (sinceNow now : Z) (clock : nat -> Readings) (db : Db)
  : Response * list Effect :=
  let subscriptions := List.filter Sub.active (alert_subscriptions db) in
  if (Z.of_nat (length subscriptions) =? 0)%Z
  then ({| processed := 0; triggered := 0 |}, [])
  else
    let venueIds := remove_dups (map Sub.venue_id subscriptions) in
    let venueRows :=
      List.filter (fun v => bool_decide (v.1 ∈ venueIds)) (venues db) in
    let venueMap := venueMapOf venueRows in
    let reportRows := recentReports sinceNow venueIds (reports db) in
    let reportsByVenue := groupByVenue reportRows in
    let st := loop now clock 0 reportsByVenue venueMap subscriptions
                   {| count := 0; trace := [] |} in
    ({| processed := Z.of_nat (length subscriptions); triggered := count st |},
     trace st).

(** The store after the updates of a trace. *)
Definition setLastTriggered (i : string) (stamp : Z) (table : list Sub.t)
  : list Sub.t :=
  map (fun s =>
         if bool_decide (Sub.id s = i) then
           {| Sub.id := Sub.id s; Sub.venue_id := Sub.venue_id s;
              Sub.device_id := Sub.device_id s; Sub.threshold := Sub.threshold s;
              Sub.active := Sub.active s; Sub.created_at := Sub.created_at s;
              Sub.last_triggered_at := Some stamp |}
         else s) table.

Definition applyEffect (table : list Sub.t) (e : Effect) : list Sub.t :=
  match e with
  | ConsoleLog _ _ _ => table
  | UpdateLastTriggered i stamp => setLastTriggered i stamp table
  end.

Definition applyTrace (es : list Effect) (table : list Sub.t) : list Sub.t :=
  fold_left applyEffect es table.

End AlertsRun.

(** ** Reference notions used to state the properties *)

(** The sum of [f] over a list. *)
Definition sumOf {A} (f : A -> R) (l : list A) : R :=
  foldr (fun x acc => (f x + acc)%R) 0%R l.

(** The exponentially weighted mean of the statuses with no damping at all:
    every report weighs [exp(-ageMinutes/30)]. *)
Definition undampedMean (now : Z) (reports : list Report) : R :=
  let base r := Scoring.baseWeightOf (Scoring.ageMinOf now (created_at r)) in
  (sumOf (fun r => base r * IZR (status r)) reports / sumOf base reports)%R.

(** The weight of a report in the quick-consensus pass: reports older than
    30 minutes are left out. *)
Definition quickWeight (now : Z) (r : Report) : R :=
  if Scoring.ageMinOf now (created_at r) <=! 30
  then Scoring.baseWeightOf (Scoring.ageMinOf now (created_at r)) else 0%R.

(** The confidence rule read on the age as a real number of minutes: no
    rounding between the age and the two thresholds. *)
Definition confidenceRule (ageMin : R) (reportCount : Z) : Confidence.t :=
  if (ageMin <=! 10) && (reportCount >=? 3)%Z then Confidence.High
  else if (ageMin <=! 25) && (reportCount >=? 2)%Z then Confidence.Medium
  else Confidence.Low.

(** A report body that passes the validation of the report route. *)
Definition validBody (body : ReportApi.Body) : Prop :=
  ReportApi.venue_id body <> "" /\ ReportApi.device_id body <> ""
  /\ (1 <= ReportApi.status body <= 4)%Z.

(** The invariant of a baseline bucket. *)
Definition baselineOk (b : Baseline.t) : Prop :=
  (1 <= Baseline.mean_score b <= 4)%R /\ (0 <= Baseline.n b)%Z.

Definition baselinesOk (db : ReportApi.Db) : Prop :=
  forall key b, ReportApi.venue_baselines db !! key = Some b -> baselineOk b.

(** The sample count of a bucket, 0 while the bucket is unseen. *)
Definition countAt (db : ReportApi.Db) (key : string * Z * Z) : Z :=
  from_option Baseline.n 0%Z (ReportApi.venue_baselines db !! key).

(** The store after a sequence of report requests, each with its instant. *)
Definition serve (getDowHourDetroit : Z -> Z * Z) (startOfDayOf : Z -> Z)
    (requests : list (Z * ReportApi.Body)) (db : ReportApi.Db) : ReportApi.Db :=
  fold_left
    (fun d req => snd (ReportApi.POST getDowHourDetroit startOfDayOf req.1 d req.2))
    requests db.

(** A subscribe body that passes the validation of the subscribe route. *)
Definition validSubscribeBody (body : SubscribeApi.Body) : Prop :=
  SubscribeApi.venue_id body <> "" /\ SubscribeApi.device_id body <> ""
  /\ (SubscribeApi.threshold body = 1 \/ SubscribeApi.threshold body = 2)%Z.

(** The row the subscribe route inserts for a body. *)
Definition freshSubscription (newId : string) (now : Z) (body : SubscribeApi.Body)
  : Sub.t :=
  {| Sub.id := newId; Sub.venue_id := SubscribeApi.venue_id body;
     Sub.device_id := SubscribeApi.device_id body;
     Sub.threshold := SubscribeApi.threshold body;
     Sub.active := true; Sub.created_at := now; Sub.last_triggered_at := None |}.

(** A status is one of the four levels. *)
Definition validStatus (r : Report) : Prop := (1 <= status r <= 4)%Z.

(** Nine reports of status 1 and one of status 4, all created at [t]; the
    outlier stands after [k] of the nine. *)
Definition nineLowOneInsane (t : Z) (k : nat) : list Report :=
  replicate k {| status := 1; created_at := t |}
  ++ [{| status := 4; created_at := t |}]
  ++ replicate (9 - k) {| status := 1; created_at := t |}.

(** ** Helpers of the pages and of the report button *)

Module Pages.

(** [minutesAgo] of the home page, the age shown as "Updated N min ago". *)
Definition minutesAgo (now iso : Z) : Z :=
  Z.max 0 (JsMath.round (IZR (now - iso) / 60000)).

(** [toNumber] of the report button: the status sent for a chosen level. *)
Definition toNumber (st : CrowdLabel) : Z :=
  match st with
  | Low => 1
  | Medium => 2
  | High => 3
  | Insane => 4
  end.

End Pages.

(** ** The device id helper (lib/deviceId) *)

Module DeviceId.

(** [getDeviceId]: [None] is the exception thrown outside the browser;
    otherwise the id and the local storage after the call. [randomUUID] is
    what [crypto.randomUUID()] would return. *)
Definition getDeviceId (hasWindow : bool) (randomUUID : string)
    (localStorage : gmap string string) : option (string * gmap string string) :=
  if negb hasWindow then None
  else
    let key := "bar_oracle_device_id" in
    let fresh := Some (randomUUID, <[key := randomUUID]> localStorage) in
    match localStorage !! key with
    | Some existing =>
        if bool_decide (existing = "") then fresh else Some (existing, localStorage)
    | None => fresh
    end.

End DeviceId.

(** ** The admin metrics route (api/admin/metrics) *)

Module AdminMetrics.

(** A row of [analytics_events] as the route selects it. *)
Record Event := {
  event : string;
  venue_id : option string;
  device_id : string;
  created_at : Z
}.

(** [a || b] on two nullable strings. *)
Definition orElse (a b : option string) : option string :=
  match a with
  | Some s => if bool_decide (s = "") then b else Some s
  | None => b
  end.

(** The check of [GET]: [true] when the metrics are served, [false] when the
    answer is 401. [expectedKey] is the environment's ADMIN_METRICS_KEY. *)
Definition authorized (expectedKey queryKey headerKey : option string) : bool :=
  let providedKey := orElse queryKey headerKey in
  let unset := match expectedKey with
               | None => true
               | Some k => bool_decide (k = "")
               end in
  negb (unset || negb (bool_decide (providedKey = expectedKey))).

Definition uniqueVisitors (eventsList : list Event) : Z :=
  Z.of_nat (length (remove_dups (map device_id eventsList))).

Definition pageViews (eventsList : list Event) : Z :=
  Z.of_nat (length (List.filter (fun e => String.prefix "page_view_" (event e))
                                eventsList)).

Definition homepageViews (eventsList : list Event) : Z :=
  Z.of_nat (length (List.filter (fun e => bool_decide (event e = "page_view_home"))
                                eventsList)).

Definition venueViews (eventsList : list Event) : Z :=
  Z.of_nat (length (List.filter (fun e => bool_decide (event e = "page_view_venue"))
                                eventsList)).

(** [total > 0 ? Math.round((views / total) * 100) : 0]. *)
Definition percentOf (views total : Z) : Z :=
  if (total >? 0)%Z then JsMath.round (IZR views / IZR total * 100) else 0%Z.

Definition venuePageviewPercent (eventsList : list Event) : Z :=
  percentOf (venueViews eventsList)
            (homepageViews eventsList + venueViews eventsList).

Definition homepagePageviewPercent (eventsList : list Event) : Z :=
  percentOf (homepageViews eventsList)
            (homepageViews eventsList + venueViews eventsList).

End AdminMetrics.

(** ** The prediction row of the venue page (app/v/[slug]/page) *)

Module VenuePage.

(** A row of [venue_baselines] as the page selects it. *)
Record BaselineRow := { dow : Z; hour : Z; mean_score : R; n : Z }.

(** What the prediction step of the page comes to: an exception, no
    prediction row, or the labels per horizon. *)
Inductive Outcome :=
| Threw
| NoPredictions
| Predictions (row : list (Z * CrowdLabel)).

Definition horizons : list Z := [30; 60; 90]%Z.

Section Predictions.
Variable getDowHourDetroit : Z -> Z * Z.

(** [buckets]: a horizon with the (dow, hour) of now + horizon. *)
Definition buckets (now : Z) : list (Z * (Z * Z)) :=
  map (fun min => (min, getDowHourDetroit (now + min * 60000)%Z)) horizons.

(** One entry of [predictions]; [None] where [buckets.find(...)!] finds
    nothing and the access to its fields throws. *)
Definition predictionFor (now : Z) (score : R) (baselines : list BaselineRow)
    (min : Z) : option (Z * CrowdLabel) :=
  match List.find (fun x => (x.1 =? min)%Z) (buckets now) with
  | None => None
  | Some b =>
      let base :=
        option_map mean_score
          (List.find (fun x => (dow x =? b.2.1)%Z && (hour x =? b.2.2)%Z) baselines) in
      Some (min, Scoring.predictLabel score base)
  end.

(** [baselines] is [None] when the baseline query failed ([baseErr]). *)
Definition predictions (now : Z) (score : R) (baselines : option (list BaselineRow))
  : Outcome :=
  match baselines with
  | None => NoPredictions
  | Some rows =>
      match mapM (predictionFor now score rows) horizons with
      | None => Threw
      | Some row => Predictions row
      end
  end.

End Predictions.

End VenuePage.

(** ** Further reference notions *)

(** The rank of a confidence level. *)
Definition confidenceRank (c : Confidence.t) : Z :=
  match c with
  | Confidence.Low => 0
  | Confidence.Medium => 1
  | Confidence.High => 2
  end.

(** One bucket after reports of the statuses [ss], in that order. *)
Definition bucketAfter (ss : list Z) (baseline : option Baseline.t)
  : option Baseline.t :=
  fold_left (fun b s => Some (ReportApi.nextBaseline b s)) ss baseline.

(** The sum of a list of integers. *)
Definition sumZ (l : list Z) : Z := fold_right Z.add 0%Z l.

(** Newest first. *)
Fixpoint sortedDesc (rows : list ReportRow.t) : Prop :=
  match rows with
  | [] => True
  | r :: rest =>
      (forall x, In x rest -> (ReportRow.created_at x <= ReportRow.created_at r)%Z)
      /\ sortedDesc rest
  end.

(** The report part of a stored row. *)
Definition reportOf (r : ReportRow.t) : Report :=
  {| status := ReportRow.status r; created_at := ReportRow.created_at r |}.

(** * Properties *)

(** ** Comparisons and rounding *)

Section JsFacts.
Local Open Scope R_scope.

Lemma ltb_true x y : (x <! y) = true <-> x < y.
Proof. unfold JsMath.ltb. destruct (Rlt_dec x y); split; intros; try done. Qed.

Lemma ltb_false x y : (x <! y) = false <-> y <= x.
Proof.
  unfold JsMath.ltb. destruct (Rlt_dec x y); split; intros; try done; lra.
Qed.

Lemma leb_true x y : (x <=! y) = true <-> x <= y.
Proof. unfold JsMath.leb. destruct (Rle_dec x y); split; intros; try done. Qed.

Lemma leb_false x y : (x <=! y) = false <-> y < x.
Proof.
  unfold JsMath.leb. destruct (Rle_dec x y); split; intros; try done; lra.
Qed.

(** [Math.round] is the floor of [x + 1/2]. *)
Lemma round_spec x z : IZR z - / 2 <= x < IZR z + / 2 -> JsMath.round x = z.
Proof.
  intros H. unfold JsMath.round. symmetry. apply Int_part_spec. lra.
Qed.

Lemma round_bounds x : IZR (JsMath.round x) - / 2 <= x < IZR (JsMath.round x) + / 2.
Proof.
  unfold JsMath.round. destruct (base_Int_part (x + / 2)). lra.
Qed.

Lemma ceil_spec x z : IZR z - 1 < x <= IZR z -> JsMath.ceil x = z.
Proof.
  intros H. unfold JsMath.ceil.
  rewrite <- (Int_part_spec (- x) (- z)); [lia |].
  rewrite opp_IZR. lra.
Qed.

Lemma ceil_bounds x : IZR (JsMath.ceil x) - 1 < x <= IZR (JsMath.ceil x).
Proof.
  unfold JsMath.ceil. rewrite opp_IZR. destruct (base_Int_part (- x)). lra.
Qed.

End JsFacts.

(** Case analysis on the first real comparison of the goal. *)
Ltac js_case :=
  match goal with
  | |- context [JsMath.ltb ?x ?y] =>
      let E := fresh "E" in
      destruct (JsMath.ltb x y) eqn:E;
      [apply ltb_true in E | apply ltb_false in E]
  | |- context [JsMath.leb ?x ?y] =>
      let E := fresh "E" in
      destruct (JsMath.leb x y) eqn:E;
      [apply leb_true in E | apply leb_false in E]
  end.

(** ** Sums *)

Section Sums.
Local Open Scope R_scope.
Context {A : Type}.
Implicit Types (f g : A -> R) (l : list A).

Lemma sumOf_app f l1 l2 : sumOf f (l1 ++ l2) = sumOf f l1 + sumOf f l2.
Proof. induction l1 as [|x l1 IH]; simpl; [lra | rewrite IH; lra]. Qed.

Lemma sumOf_replicate f k x : sumOf f (replicate k x) = INR k * f x.
Proof.
  induction k as [|k IH]; [simpl; lra |].
  rewrite S_INR. simpl. rewrite IH. lra.
Qed.

Lemma sumOf_nonneg f l : (forall x, 0 <= f x) -> 0 <= sumOf f l.
Proof.
  intros Hf. induction l as [|x l IH]; simpl; [lra | specialize (Hf x); lra].
Qed.

(** A weighted sum of values between [lo] and [hi] lies between [lo] and
    [hi] times the sum of the weights. *)
Lemma sumOf_between f (v : A -> R) (P : A -> Prop) lo hi l :
  (forall x, 0 <= f x) -> (forall x, P x -> lo <= v x <= hi) -> Forall P l ->
  lo * sumOf f l <= sumOf (fun x => f x * v x) l <= hi * sumOf f l.
Proof.
  intros Hf Hv Hl. induction Hl as [|x l Hx _ IH]; simpl; [lra |].
  specialize (Hf x). specialize (Hv x Hx). nra.
Qed.

End Sums.

(** ** The decayed-consensus scorer *)

Section Scorer.
Local Open Scope R_scope.
Import Scoring.

Lemma baseWeightOf_pos ageMin : 0 < baseWeightOf ageMin.
Proof. apply exp_pos. Qed.

Lemma outlierMultiplier_cases st c :
  ((2 <= Z.abs (st - c))%Z /\ outlierMultiplier st c = 0.25)
  \/ ((Z.abs (st - c) < 2)%Z /\ outlierMultiplier st c = 1).
Proof.
  unfold outlierMultiplier.
  destruct (Z.geb_spec (Z.abs (st - c)) 2); [left | right]; split; try lia; lra.
Qed.

Lemma dampedWeight_pos now c r : 0 < dampedWeight now c r.
Proof.
  unfold dampedWeight.
  pose proof (baseWeightOf_pos (ageMinOf now (created_at r))).
  destruct (outlierMultiplier_cases (status r) c) as [[_ ->] | [_ ->]]; lra.
Qed.

Lemma quickSums_sum now l acc :
  quickSums now l acc
  = (fst acc + sumOf (quickWeight now) l,
     snd acc + sumOf (fun r => quickWeight now r * IZR (status r)) l).
Proof.
  revert acc. induction l as [|r l IH]; intros [w s]; simpl.
  - f_equal; lra.
  - unfold quickWeight at 1 3.
    destruct (ageMinOf now (created_at r) <=! 30); rewrite IH; simpl;
      f_equal; ring.
Qed.

Lemma dampedSums_sum now c l acc :
  dampedSums now c l acc
  = (fst acc + sumOf (dampedWeight now c) l,
     snd acc + sumOf (fun r => dampedWeight now c r * IZR (status r)) l).
Proof.
  revert acc. induction l as [|r l IH]; intros [w s]; simpl.
  - f_equal; lra.
  - rewrite IH. simpl. f_equal; ring.
Qed.

(** The scorer as a quotient of two sums. *)
Lemma computeDecayedScore_sum now reports :
  let c := consensusOf now reports in
  let W := sumOf (dampedWeight now c) reports in
  let S := sumOf (fun r => dampedWeight now c r * IZR (status r)) reports in
  computeDecayedScore now reports = if W >! 0 then S / W else 2.
Proof.
  intros c W S. unfold computeDecayedScore.
  rewrite dampedSums_sum. simpl. fold c. rewrite !Rplus_0_l. reflexivity.
Qed.

Lemma computeDecayedScore_nil now : computeDecayedScore now [] = 2.
Proof.
  rewrite computeDecayedScore_sum. simpl. js_case; [lra | reflexivity].
Qed.

Lemma labelFromScore_2 : labelFromScore 2 = Medium.
Proof.
  unfold labelFromScore. js_case; [lra |]. js_case; [reflexivity | lra].
Qed.

Lemma computeDecayedScore_bounds now reports :
  Forall validStatus reports -> 1 <= computeDecayedScore now reports <= 4.
Proof.
  intros Hv. rewrite computeDecayedScore_sum.
  set (c := consensusOf now reports).
  js_case; [| lra].
  pose proof (sumOf_between (dampedWeight now c) (fun r => IZR (status r))
                validStatus 1 4 reports) as Hb.
  destruct Hb as [Hlo Hhi]; [| | exact Hv |].
  - intros r. left. apply dampedWeight_pos.
  - intros r [H1 H4]. split; apply IZR_le; assumption.
  - split.
    + apply Rmult_le_reg_r with (1 := E). unfold Rdiv.
      rewrite Rmult_assoc, Rinv_l by lra. lra.
    + apply Rmult_le_reg_r with (1 := E). unfold Rdiv.
      rewrite Rmult_assoc, Rinv_l by lra. lra.
Qed.

End Scorer.

Section ScorerClaims.
Local Open Scope R_scope.
Import Scoring.

(** C3. For every list of reports whose statuses all lie in {1,2,3,4} the
    decayed-consensus scorer returns a value in [1,4]. The total weight is
    either zero, and then the result is exactly 2, or positive, and then the
    result is the weighted mean. For the empty list the result is exactly 2,
    which the label classifier maps to Medium. *)
Theorem scorer_range_and_default (now : Z) (reports : list Report) :
  Forall validStatus reports ->
  1 <= computeDecayedScore now reports <= 4
  /\ (let c := consensusOf now reports in
      let W := sumOf (dampedWeight now c) reports in
      let S := sumOf (fun r => dampedWeight now c r * IZR (status r)) reports in
      (W = 0 /\ computeDecayedScore now reports = 2)
      \/ (0 < W /\ computeDecayedScore now reports = S / W))
  /\ computeDecayedScore now [] = 2
  /\ labelFromScore (computeDecayedScore now []) = Medium.
Proof.
  intros Hv. split; [| split; [| split]].
  - apply computeDecayedScore_bounds, Hv.
  - intros c W S.
    pose proof (computeDecayedScore_sum now reports) as Hs. simpl in Hs.
    fold c in Hs. fold W S in Hs. rewrite Hs.
    assert (0 <= W) as HW.
    { apply sumOf_nonneg. intros r. left. apply dampedWeight_pos. }
    js_case; [right | left]; split; auto; lra.
  - apply computeDecayedScore_nil.
  - rewrite computeDecayedScore_nil. apply labelFromScore_2.
Qed.

Lemma scorer_range_and_default_witness :
  let reports := [ {| status := 1; created_at := 0 |};
                   {| status := 4; created_at := 540000 |} ] in
  Forall validStatus reports
  /\ 1 <= computeDecayedScore 600000 reports <= 4.
Proof.
  intros reports.
  assert (Forall validStatus reports) as Hv.
  { repeat constructor; unfold validStatus; simpl; lia. }
  split; [exact Hv |].
  exact (proj1 (scorer_range_and_default 600000 reports Hv)).
Defined.

(** The sums over nine low reports and one outlier. *)
Lemma sumOf_nineLowOneInsane (f : Report -> R) t k :
  (k <= 9)%nat ->
  sumOf f (nineLowOneInsane t k)
  = 9 * f {| status := 1; created_at := t |} + f {| status := 4; created_at := t |}.
Proof.
  intros Hk. unfold nineLowOneInsane.
  rewrite !sumOf_app, !sumOf_replicate, minus_INR by exact Hk.
  simpl. lra.
Qed.

Lemma consensus_nineLowOneInsane now t k :
  (k <= 9)%nat ->
  consensusOf now (nineLowOneInsane t k) = 1%Z
  \/ consensusOf now (nineLowOneInsane t k) = 2%Z.
Proof.
  intros Hk. unfold consensusOf.
  destruct (0 <? Z.of_nat (length (nineLowOneInsane t k)))%Z; [| by right].
  rewrite quickSums_sum. simpl. rewrite !Rplus_0_l.
  rewrite !sumOf_nineLowOneInsane by exact Hk.
  unfold quickWeight. simpl.
  pose proof (baseWeightOf_pos (ageMinOf now t)) as Hb.
  destruct (ageMinOf now t <=! 30).
  - js_case; [left | by right].
    apply round_spec. simpl.
    replace ((9 * (baseWeightOf (ageMinOf now t) * 1)
              + baseWeightOf (ageMinOf now t) * 4)
             / (9 * baseWeightOf (ageMinOf now t) + baseWeightOf (ageMinOf now t)))
      with (13 / 10) by (field; lra).
    lra.
  - js_case; [lra | by right].
Qed.

Lemma score_nineLowOneInsane now t k :
  (k <= 9)%nat -> computeDecayedScore now (nineLowOneInsane t k) = 40 / 37.
Proof.
  intros Hk. rewrite computeDecayedScore_sum.
  rewrite !sumOf_nineLowOneInsane by exact Hk.
  pose proof (baseWeightOf_pos (ageMinOf now t)) as Hb.
  unfold dampedWeight. simpl.
  assert (outlierMultiplier 1 (consensusOf now (nineLowOneInsane t k)) = 1
          /\ outlierMultiplier 4 (consensusOf now (nineLowOneInsane t k)) = 0.25)
    as [-> ->].
  { destruct (consensus_nineLowOneInsane now t k Hk) as [-> | ->];
      unfold outlierMultiplier; simpl; split; lra. }
  replace 0.25 with (/ 4) by lra.
  js_case; [field; lra | lra].
Qed.

Lemma undamped_nineLowOneInsane now t k :
  (k <= 9)%nat -> undampedMean now (nineLowOneInsane t k) = 13 / 10.
Proof.
  intros Hk. unfold undampedMean.
  rewrite !sumOf_nineLowOneInsane by exact Hk. simpl.
  pose proof (baseWeightOf_pos (ageMinOf now t)) as Hb.
  field. lra.
Qed.

(** C2. In the final pass of the scorer a report whose status differs from
    the quick consensus by 2 levels or more weighs 0.25 times its decay
    weight, and any other report weighs 1.0 times its decay weight; the
    signal is the quotient of the sums of these weights. For nine reports of
    status 1 and one of status 4 created at the same instant, in any order,
    the signal is strictly closer to 1 than the undamped exponentially
    weighted mean of the same reports. *)
Theorem outlier_damping (now t : Z) (k : nat) :
  (k <= 9)%nat ->
  (forall reports r,
      let c := consensusOf now reports in
      let base := baseWeightOf (ageMinOf now (created_at r)) in
      ((2 <= Z.abs (status r - c))%Z /\ dampedWeight now c r = base * 0.25)
      \/ ((Z.abs (status r - c) < 2)%Z /\ dampedWeight now c r = base * 1.0))
  /\ (forall reports,
      let c := consensusOf now reports in
      dampedSums now c reports (0, 0)
      = (sumOf (dampedWeight now c) reports,
         sumOf (fun r => dampedWeight now c r * IZR (status r)) reports))
  /\ Rabs (computeDecayedScore now (nineLowOneInsane t k) - 1)
     < Rabs (undampedMean now (nineLowOneInsane t k) - 1).
Proof.
  intros Hk. split; [| split].
  - intros reports r c base. unfold dampedWeight. fold base.
    destruct (outlierMultiplier_cases (status r) c) as [[H ->] | [H ->]];
      [left | right]; split; auto; lra.
  - intros reports c. rewrite dampedSums_sum. simpl. f_equal; lra.
  - rewrite score_nineLowOneInsane, undamped_nineLowOneInsane by exact Hk.
    rewrite !Rabs_pos_eq by lra. lra.
Qed.

Lemma outlier_damping_witness :
  (3 <= 9)%nat
  /\ Rabs (computeDecayedScore 600000 (nineLowOneInsane 540000 3) - 1)
     < Rabs (undampedMean 600000 (nineLowOneInsane 540000 3) - 1).
Proof.
  assert (3 <= 9)%nat as Hk by lia.
  split; [exact Hk |].
  exact (proj2 (proj2 (outlier_damping 600000 540000 3 Hk))).
Defined.

End ScorerClaims.

(** ** Confidence, prediction and trend *)

Section ReadPath.
Local Open Scope R_scope.
Import Scoring.

(** The rounded age is at most [m] minutes exactly when the age in
    milliseconds is below [m] minutes and a half. *)
Lemma rounded_age_le now latest m :
  (0 <= m)%Z ->
  (Z.max 0 (JsMath.round (ageMinOf now latest)) <=? m)%Z
  = (now - latest <? 60000 * m + 30000)%Z.
Proof.
  intros Hm. unfold ageMinOf.
  pose proof (round_bounds (IZR (now - latest) / 60000)) as [Hlo Hhi].
  set (d := (now - latest)%Z) in *.
  set (k := JsMath.round (IZR d / 60000)) in *. clearbody k d.
  destruct (Z.ltb_spec d (60000 * m + 30000)) as [Hd | Hd].
  - apply Z.leb_le. apply Z.max_lub; [exact Hm |].
    apply IZR_lt in Hd. rewrite plus_IZR, mult_IZR in Hd.
    assert (IZR k < IZR (m + 1)) as Hk by (rewrite plus_IZR; lra).
    apply lt_IZR in Hk. lia.
  - apply Z.leb_gt. apply IZR_le in Hd. rewrite plus_IZR, mult_IZR in Hd.
    assert (IZR m < IZR k) as Hk by lra.
    apply lt_IZR in Hk. lia.
Qed.

(** The confidence in terms of the age in milliseconds. *)
Lemma confidenceFrom_millis now latest reportCount :
  confidenceFrom now (Some latest) reportCount
  = if ((now - latest <? 630000) && (reportCount >=? 3))%Z
    then Confidence.High
    else if ((now - latest <? 1530000) && (reportCount >=? 2))%Z
         then Confidence.Medium
         else Confidence.Low.
Proof.
  unfold confidenceFrom.
  rewrite (rounded_age_le now latest 10), (rounded_age_le now latest 25) by lia.
  reflexivity.
Qed.

(** C7, as the code has it. With no report the confidence is Low.
    Otherwise the rule is applied, in the order High, Medium, Low, to the
    age rounded to the nearest whole minute and not below 0: High when the
    rounded age is at most 10, that is the age is below 10.5 minutes, and
    the count at least 3; else Medium when the rounded age is at most 25,
    that is the age is below 25.5 minutes, and the count at least 2; else
    Low. *)
Theorem confidence_on_rounded_age (now : Z) (latestCreatedAt : option Z)
    (reportCount : Z) :
  confidenceFrom now None reportCount = Confidence.Low
  /\ (forall latest,
       let rounded := Z.max 0 (JsMath.round (ageMinOf now latest)) in
       confidenceFrom now (Some latest) reportCount
       = confidenceRule (IZR rounded) reportCount)
  /\ confidenceFrom now latestCreatedAt reportCount
     = match latestCreatedAt with
       | None => Confidence.Low
       | Some latest =>
           if ((now - latest <? 630000) && (reportCount >=? 3))%Z
           then Confidence.High
           else if ((now - latest <? 1530000) && (reportCount >=? 2))%Z
                then Confidence.Medium
                else Confidence.Low
       end.
Proof.
  split; [reflexivity | split].
  - intros latest rounded. unfold confidenceFrom, confidenceRule. fold rounded.
    assert (forall m : Z, (IZR rounded <=! IZR m) = (rounded <=? m)%Z) as Hle.
    { intros m. destruct (Z.leb_spec rounded m) as [H | H].
      - apply leb_true, IZR_le, H.
      - apply leb_false, IZR_lt, H. }
    rewrite (Hle 10%Z), (Hle 25%Z). reflexivity.
  - destruct latestCreatedAt as [latest |]; [| reflexivity].
    apply confidenceFrom_millis.
Qed.

(** C7, as stated, fails: a report 10.4 minutes old with 3 reports in the
    window gets High, where the rule on the real age gives Medium. *)
Lemma confidence_real_age_counterexample :
  confidenceFrom 624000 (Some 0%Z) 3 = Confidence.High
  /\ confidenceRule (ageMinOf 624000 0) 3 = Confidence.Medium
  /\ confidenceFrom 624000 (Some 0%Z) 3 <> confidenceRule (ageMinOf 624000 0) 3.
Proof.
  assert (confidenceFrom 624000 (Some 0%Z) 3 = Confidence.High) as H1.
  { rewrite confidenceFrom_millis. reflexivity. }
  assert (confidenceRule (ageMinOf 624000 0) 3 = Confidence.Medium) as H2.
  { unfold confidenceRule, ageMinOf.
    change (624000 - 0)%Z with 624000%Z.
    js_case; [lra |]. js_case; [reflexivity | lra]. }
  split; [exact H1 | split; [exact H2 |]].
  rewrite H1, H2. discriminate.
Qed.

(** C8. The blended signal of the predictor is the current signal when the
    bucket has no baseline and 0.55 baseline + 0.45 current otherwise; the
    predicted label is the label of the blend. For baseline 3.0 and current
    signal 1.0 the blend is 2.1 and the label is Medium. *)
Theorem predictor_blend (currentScore : R) (baselineScore : option R) :
  blended currentScore None = currentScore
  /\ (forall baseline,
       blended currentScore (Some baseline) = 0.55 * baseline + 0.45 * currentScore)
  /\ predictLabel currentScore baselineScore
     = labelFromScore (blended currentScore baselineScore)
  /\ blended 1.0 (Some 3.0) = 2.1
  /\ predictLabel 1.0 (Some 3.0) = Medium.
Proof.
  repeat split.
  - simpl. lra.
  - unfold predictLabel, labelFromScore, blended.
    js_case; [lra |]. js_case; [reflexivity | lra].
Qed.

(** The two windows of the trend detector. *)
Lemma windows_of_old_reports now reports :
  Forall (fun r => 90 < ageMinOf now (created_at r)) reports ->
  List.filter (fun r => ageMinOf now (created_at r) <=! 30) reports = [].
Proof.
  induction 1 as [|r l Hr _ IH]; [reflexivity |]. simpl.
  js_case; [lra | exact IH].
Qed.

(** C9. The trend detector answers Unknown whenever fewer than 2 reports
    fall in the current window (age at most 30 minutes) or fewer than 2
    fall in the previous window (age above 30 and at most 90 minutes); in
    particular whenever every report is more than 90 minutes old. *)
Theorem trend_unknown (now nowCurrent nowPrevious : Z) (reports : list Report) :
  (length (List.filter (fun r => ageMinOf now (created_at r) <=! 30) reports) < 2)%nat
  \/ (length (List.filter (fun r => (ageMinOf now (created_at r) >! 30)
                                    && (ageMinOf now (created_at r) <=! 90))
                          reports) < 2)%nat
  \/ Forall (fun r => 90 < ageMinOf now (created_at r)) reports ->
  computeTrend now nowCurrent nowPrevious reports = Unknown.
Proof.
  intros H. unfold computeTrend.
  destruct H as [H | [H | H]].
  - destruct (Z.ltb_spec (Z.of_nat (length (List.filter
      (fun r => ageMinOf now (created_at r) <=! 30) reports))) 2);
      [reflexivity | lia].
  - destruct (Z.ltb_spec (Z.of_nat (length (List.filter
      (fun r => (ageMinOf now (created_at r) >! 30)
                && (ageMinOf now (created_at r) <=! 90)) reports))) 2);
      [rewrite orb_true_r; reflexivity | lia].
  - rewrite (windows_of_old_reports now reports H). reflexivity.
Qed.

Lemma trend_unknown_witness :
  let reports := [ {| status := 3; created_at := 0 |};
                   {| status := 3; created_at := 60000 |} ] in
  Forall (fun r => 90 < ageMinOf 6000000 (created_at r)) reports
  /\ computeTrend 6000000 6000001 6000002 reports = Unknown.
Proof.
  intros reports.
  assert (Forall (fun r => 90 < ageMinOf 6000000 (created_at r)) reports) as H.
  { constructor; [| constructor; [| constructor]];
      unfold ageMinOf; cbn [created_at]; rewrite minus_IZR; lra. }
  split; [exact H |].
  apply (trend_unknown 6000000 6000001 6000002 reports). right. right. exact H.
Defined.

End ReadPath.

(** ** The report route: cooldown guardrail and baseline update *)

Section ReportRoute.
Local Open Scope R_scope.
Import ReportApi.

Lemma minutesBetween_nonneg a b : 0 <= minutesBetween a b.
Proof.
  unfold minutesBetween, JsMath.abs.
  pose proof (Rabs_pos (IZR (a - b))). lra.
Qed.

Lemma minutesBetween_after now d :
  (0 <= d)%Z -> minutesBetween now (now - d) = IZR d / 60000.
Proof.
  intros Hd. unfold minutesBetween, JsMath.abs.
  replace (now - (now - d))%Z with d by lia.
  rewrite Rabs_pos_eq; [reflexivity | apply IZR_le, Hd].
Qed.

(** The greatest element seen by the running maximum. *)
Lemma fold_max_spec (l : list Z) (x : Z) :
  let m := fold_left Z.max l x in
  (m = x \/ In m l) /\ (x <= m)%Z /\ (forall y, In y l -> (y <= m)%Z).
Proof.
  revert x. induction l as [|y l IH]; intros x; simpl.
  - split; [by left | split; [lia | intros ? []]].
  - destruct (IH (Z.max x y)) as (Hin & Hge & Hall).
    split; [| split].
    + destruct Hin as [-> | Hin]; [| by right; right].
      destruct (Z.max_spec x y) as [[_ ->] | [_ ->]]; [right; by left | by left].
    + lia.
    + intros z [<- | Hz]; [lia | by apply Hall].
Qed.

(** [lastCreatedAt] is the date of the device's most recent report for the
    venue. *)
Lemma lastCreatedAt_most_recent rows venue device t :
  lastCreatedAt rows venue device = Some t ->
  (exists r, In r rows /\ ReportRow.venue_id r = venue /\ ReportRow.device_id r = device
             /\ ReportRow.created_at r = t)
  /\ (forall r, In r rows -> ReportRow.venue_id r = venue -> ReportRow.device_id r = device ->
                (ReportRow.created_at r <= t)%Z).
Proof.
  unfold lastCreatedAt.
  set (p := fun r => bool_decide (ReportRow.venue_id r = venue)
                     && bool_decide (ReportRow.device_id r = device)).
  assert (forall r, In r (List.filter p rows)
                    <-> In r rows /\ ReportRow.venue_id r = venue /\ ReportRow.device_id r = device)
    as Hp.
  { intros r. rewrite filter_In. unfold p.
    rewrite andb_true_iff, !bool_decide_eq_true. tauto. }
  destruct (List.filter p rows) as [|r0 rest] eqn:Hf; [discriminate |].
  intros [= <-].
  destruct (fold_max_spec (map ReportRow.created_at rest) (ReportRow.created_at r0))
    as (Hin & Hge & Hall).
  split.
  - destruct Hin as [Heq | Hin].
    + exists r0. destruct (proj1 (Hp r0)) as (? & ? & ?); [by left |]. auto.
    + apply in_map_iff in Hin as (r & Hr & Hin').
      exists r. destruct (proj1 (Hp r)) as (? & ? & ?); [by right |]. auto.
  - intros r Hr Hv Hd.
    destruct (proj2 (Hp r)) as [<- | Hr']; [auto | exact Hge |].
    apply Hall, in_map, Hr'.
Qed.

Lemma cooldownWait_spec now last w :
  cooldownWait now last = Some w
  <-> exists t, last = Some t /\ minutesBetween now t < 10
                /\ w = Z.max 1 (JsMath.ceil (10 - minutesBetween now t)).
Proof.
  unfold cooldownWait. destruct last as [t |].
  - js_case; split.
    + intros [= <-]. eauto.
    + intros (t' & [= <-] & _ & ->). reflexivity.
    + discriminate.
    + intros (t' & [= <-] & Hlt & _). lra.
  - split; [discriminate | intros (t & ? & _); discriminate].
Qed.

Lemma cooldownWait_range now last w :
  cooldownWait now last = Some w -> (1 <= w <= 10)%Z.
Proof.
  intros (t & _ & Hlt & ->)%cooldownWait_spec.
  pose proof (minutesBetween_nonneg now t) as H0.
  pose proof (ceil_bounds (10 - minutesBetween now t)) as [Hlo Hhi].
  set (c := JsMath.ceil (10 - minutesBetween now t)) in *. clearbody c.
  assert (IZR c < IZR 11) as Hc by lra.
  apply lt_IZR in Hc. lia.
Qed.

(** The running mean stays a mean of statuses. *)
Lemma nextBaseline_ok baseline s :
  (forall b, baseline = Some b -> baselineOk b) -> (1 <= s <= 4)%Z ->
  baselineOk (nextBaseline baseline s).
Proof.
  intros Hb [Hs1 Hs4]. apply IZR_le in Hs1, Hs4.
  unfold nextBaseline, baselineOk. simpl.
  set (m := from_option Baseline.mean_score 2.0 baseline).
  set (k := from_option Baseline.n 0%Z baseline).
  assert (1 <= m <= 4 /\ (0 <= k)%Z) as [Hm Hk].
  { unfold m, k. destruct baseline as [b |]; simpl; [apply Hb; reflexivity |].
    split; [lra | lia]. }
  split; [| lia].
  rewrite plus_IZR. apply IZR_le in Hk. clearbody m k.
  assert (0 < IZR k + 1) as Hpos by lra.
  split.
  - apply Rmult_le_reg_r with (1 := Hpos). unfold Rdiv.
    rewrite Rmult_assoc, Rinv_l by lra. nra.
  - apply Rmult_le_reg_r with (1 := Hpos). unfold Rdiv.
    rewrite Rmult_assoc, Rinv_l by lra. nra.
Qed.

Variable getDowHourDetroit : Z -> Z * Z.
Variable startOfDayOf : Z -> Z.

Local Abbreviation POST := (ReportApi.POST getDowHourDetroit startOfDayOf).

(** The route on a body that passes validation. *)
Lemma POST_valid now db body :
  validBody body ->
  POST now db body
  = match cooldownWait now (lastCreatedAt (reports db) (venue_id body)
                                          (device_id body)) with
    | Some wait => (SlowDown wait, db)
    | None =>
        if (countSince (reports db) (device_id body) (startOfDayOf now) >=? 20)%Z
        then (DailyLimit, db)
        else
          let key := (venue_id body, (getDowHourDetroit now).1,
                      (getDowHourDetroit now).2) in
          (Accepted,
           {| reports := reports db
                ++ [{| ReportRow.venue_id := venue_id body; ReportRow.status := status body;
                       ReportRow.line_outside := line_outside body;
                       ReportRow.device_id := device_id body; ReportRow.created_at := now |}];
              venue_baselines :=
                <[key := nextBaseline (venue_baselines db !! key) (status body)]>
                  (venue_baselines db) |})
    end.
Proof.
  intros (Hv & Hd & Hs). unfold ReportApi.POST.
  rewrite (bool_decide_eq_false_2 _ Hv), (bool_decide_eq_false_2 _ Hd).
  replace (status body =? 0)%Z with false by (symmetry; apply Z.eqb_neq; lia).
  rewrite bool_decide_eq_true_2.
  2:{ assert (status body = 1 \/ status body = 2 \/ status body = 3
              \/ status body = 4)%Z as Hc by lia.
      rewrite !elem_of_cons. tauto. }
  simpl. destruct (getDowHourDetroit now) as [dow hour]. reflexivity.
Qed.

End ReportRoute.

Section ReportClaims.
Local Open Scope R_scope.
Import ReportApi.

Variable getDowHourDetroit : Z -> Z * Z.
Variable startOfDayOf : Z -> Z.

Local Abbreviation POST := (ReportApi.POST getDowHourDetroit startOfDayOf).

(** C6. A valid report is refused by the cooldown guardrail exactly when the
    device's most recent report for the venue is less than 10 minutes old,
    the age being the distance in minutes between the request and that
    report, and the refusal carries wait = max(1, ceil(10 - ageMinutes)), a
    number between 1 and 10. When the most recent report is 9 minutes old the
    report is refused with wait = 1; when it is 11 minutes old the report
    passes the guardrail and is accepted unless the daily cap refuses it. *)
Theorem submission_cooldown (now : Z) (db : Db) (body : Body) :
  validBody body ->
  let last := lastCreatedAt (reports db) (venue_id body) (device_id body) in
  let resp := fst (POST now db body) in
  (forall w,
      resp = SlowDown w
      <-> exists t, last = Some t /\ minutesBetween now t < 10
                    /\ w = Z.max 1 (JsMath.ceil (10 - minutesBetween now t)))
  /\ (forall w, resp = SlowDown w -> (1 <= w <= 10)%Z)
  /\ (forall t, last = Some t ->
        (exists r, In r (reports db) /\ ReportRow.venue_id r = venue_id body
                   /\ ReportRow.device_id r = device_id body /\ ReportRow.created_at r = t)
        /\ (forall r, In r (reports db) -> ReportRow.venue_id r = venue_id body ->
                      ReportRow.device_id r = device_id body ->
                      (ReportRow.created_at r <= t)%Z))
  /\ (last = Some (now - 540000)%Z -> POST now db body = (SlowDown 1, db))
  /\ (last = Some (now - 660000)%Z ->
      resp = if (countSince (reports db) (device_id body) (startOfDayOf now)
                 >=? 20)%Z
             then DailyLimit else Accepted).
Proof.
  intros Hv last resp.
  assert (forall w, resp = SlowDown w <-> cooldownWait now last = Some w) as Hw.
  { intros w. unfold resp. rewrite (POST_valid _ _ now db body Hv). fold last.
    destruct (cooldownWait now last) as [w' |]; simpl.
    - split; intros [= ->]; reflexivity.
    - destruct (countSince _ _ _ >=? 20)%Z; simpl; split; discriminate. }
  split; [| split; [| split; [| split]]].
  - intros w. rewrite Hw. apply cooldownWait_spec.
  - intros w Hr. apply Hw in Hr. exact (cooldownWait_range _ _ _ Hr).
  - intros t Ht. exact (lastCreatedAt_most_recent _ _ _ _ Ht).
  - intros Hl. rewrite (POST_valid _ _ now db body Hv). fold last. rewrite Hl.
    unfold cooldownWait. rewrite minutesBetween_after by lia.
    js_case; [| lra].
    rewrite (ceil_spec _ 1); [reflexivity | lra].
  - intros Hl. unfold resp. rewrite (POST_valid _ _ now db body Hv). fold last.
    rewrite Hl. unfold cooldownWait. rewrite minutesBetween_after by lia.
    js_case; [lra |].
    destruct (countSince _ _ _ >=? 20)%Z; reflexivity.
Qed.

(** No request lets a bucket leave the invariant or lose samples. *)
Lemma POST_baselines now db body :
  baselinesOk db ->
  baselinesOk (snd (POST now db body))
  /\ (forall key, (countAt db key <= countAt (snd (POST now db body)) key)%Z).
Proof.
  intros Hok. unfold ReportApi.POST.
  destruct (_ || _ || _); [by split |].
  destruct (negb _) eqn:Hs; [by split |].
  destruct (cooldownWait _ _); [by split |].
  destruct (countSince _ _ _ >=? 20)%Z; [by split |].
  destruct (getDowHourDetroit now) as [dow hour]. simpl.
  apply negb_false_iff, bool_decide_eq_true in Hs.
  assert (1 <= status body <= 4)%Z as Hs'.
  { rewrite !elem_of_cons in Hs.
    destruct Hs as [-> | [-> | [-> | [-> | Hs]]]]; try lia.
    by apply elem_of_nil in Hs. }
  split.
  - intros key b. simpl. rewrite lookup_insert. case_decide.
    + intros [= <-]. apply nextBaseline_ok; [| exact Hs'].
      intros b Hb. exact (Hok _ _ Hb).
    + apply Hok.
  - intros key. unfold countAt. simpl. rewrite lookup_insert. case_decide.
    + subst key. simpl.
      destruct (venue_baselines db !! _) as [b |]; simpl; [lia |].
      lia.
    + lia.
Qed.

Lemma serve_baselines requests db :
  baselinesOk db ->
  baselinesOk (serve getDowHourDetroit startOfDayOf requests db)
  /\ (forall key,
        (countAt db key
         <= countAt (serve getDowHourDetroit startOfDayOf requests db) key)%Z).
Proof.
  revert db. induction requests as [|[now body] requests IH]; intros db Hok.
  - split; [exact Hok | intros; cbn; lia].
  - change (serve getDowHourDetroit startOfDayOf ((now, body) :: requests) db)
      with (serve getDowHourDetroit startOfDayOf requests (snd (POST now db body))).
    destruct (POST_baselines now db body Hok) as [Hok' Hmono].
    destruct (IH _ Hok') as [Hok'' Hmono'].
    split; [exact Hok'' |].
    intros key. specialize (Hmono key). specialize (Hmono' key). lia.
Qed.

(** An accepted request carried a valid body. *)
Lemma POST_accepted now db body :
  fst (POST now db body) = Accepted -> validBody body.
Proof.
  unfold ReportApi.POST, validBody.
  destruct (bool_decide (venue_id body = "")) eqn:Hv; [discriminate |].
  destruct (status body =? 0)%Z eqn:H0; [discriminate |].
  destruct (bool_decide (device_id body = "")) eqn:Hd; [discriminate |].
  destruct (bool_decide (status body ∈ [1; 2; 3; 4]%Z)) eqn:Hs; [| discriminate].
  intros _. apply bool_decide_eq_false in Hv, Hd. apply bool_decide_eq_true in Hs.
  split; [exact Hv | split; [exact Hd |]].
  rewrite !elem_of_cons in Hs.
  destruct Hs as [-> | [-> | [-> | [-> | Hs]]]]; try lia.
  by apply elem_of_nil in Hs.
Qed.

(** C5. On an accepted report of status s the bucket of the report's
    (venue, day-of-week, hour), read as mean 2.0 and count 0 while unseen,
    becomes mean' = (mean * n + s) / (n + 1), n' = n + 1, and no other
    bucket changes. If every stored bucket has its mean in [1,4] and a
    non-negative count, this still holds after the request and after any
    further sequence of requests, and no bucket's count ever decreases. *)
Theorem baseline_running_mean (now : Z) (db : Db) (body : Body) :
  baselinesOk db ->
  fst (POST now db body) = Accepted ->
  let db' := snd (POST now db body) in
  let key := (venue_id body, (getDowHourDetroit now).1,
              (getDowHourDetroit now).2) in
  let prev := venue_baselines db !! key in
  let mean := from_option Baseline.mean_score 2.0 prev in
  let cnt := from_option Baseline.n 0%Z prev in
  (1 <= status body <= 4)%Z
  /\ venue_baselines db' !! key
     = Some {| Baseline.mean_score :=
                 (mean * IZR cnt + IZR (status body)) / IZR (cnt + 1);
               Baseline.n := (cnt + 1)%Z |}
  /\ (forall key', key' <> key ->
        venue_baselines db' !! key' = venue_baselines db !! key')
  /\ baselinesOk db'
  /\ (forall key', (countAt db key' <= countAt db' key')%Z)
  /\ (forall requests,
        let db'' := serve getDowHourDetroit startOfDayOf requests db' in
        baselinesOk db''
        /\ (forall key', (countAt db key' <= countAt db'' key')%Z)).
Proof.
  intros Hok Hacc db' key prev mean cnt.
  pose proof (POST_accepted now db body Hacc) as Hv.
  destruct (POST_baselines now db body Hok) as [Hok' Hmono]. fold db' in Hok', Hmono.
  assert (venue_baselines db'
          = <[key := nextBaseline prev (status body)]> (venue_baselines db)) as Hdb.
  { unfold db'. revert Hacc. rewrite (POST_valid _ _ now db body Hv).
    destruct (cooldownWait _ _); [discriminate |].
    destruct (countSince _ _ _ >=? 20)%Z; [discriminate |]. reflexivity. }
  split; [apply Hv |]. split; [| split; [| split; [| split]]].
  - rewrite Hdb, lookup_insert_eq. reflexivity.
  - intros key' Hne. rewrite Hdb, lookup_insert_ne by congruence. reflexivity.
  - exact Hok'.
  - exact Hmono.
  - intros requests db''.
    destruct (serve_baselines requests db' Hok') as [Hok'' Hmono'].
    split; [exact Hok'' |].
    intros key'. specialize (Hmono key'). specialize (Hmono' key').
    fold db'' in Hmono'. lia.
Qed.

End ReportClaims.

Lemma submission_cooldown_witness :
  let body := {| ReportApi.venue_id := "v1"; ReportApi.status := 2;
                 ReportApi.line_outside := false; ReportApi.device_id := "d1" |} in
  let db := {| ReportApi.reports :=
                 [{| ReportRow.venue_id := "v1"; ReportRow.status := 2;
                     ReportRow.line_outside := false; ReportRow.device_id := "d1";
                     ReportRow.created_at := 0 |}];
               ReportApi.venue_baselines := ∅ |} in
  validBody body
  /\ ReportApi.POST (fun _ => (0, 0)%Z) (fun _ => 0%Z) 540000 db body
     = (ReportApi.SlowDown 1, db)
  /\ fst (ReportApi.POST (fun _ => (0, 0)%Z) (fun _ => 0%Z) 660000 db body)
     = ReportApi.Accepted.
Proof.
  intros body db.
  assert (validBody body) as Hv.
  { unfold validBody. simpl. repeat split; try discriminate; lia. }
  split; [exact Hv | split].
  - apply (submission_cooldown (fun _ => (0, 0)%Z) (fun _ => 0%Z) 540000 db body Hv).
    reflexivity.
  - apply (submission_cooldown (fun _ => (0, 0)%Z) (fun _ => 0%Z) 660000 db body Hv).
    reflexivity.
Defined.

Lemma baseline_running_mean_witness :
  let body := {| ReportApi.venue_id := "v1"; ReportApi.status := 3;
                 ReportApi.line_outside := false; ReportApi.device_id := "d1" |} in
  let db := {| ReportApi.reports := []; ReportApi.venue_baselines := ∅ |} in
  let getDowHourDetroit := fun _ : Z => (5, 23)%Z in
  let startOfDayOf := fun _ : Z => 0%Z in
  baselinesOk db
  /\ fst (ReportApi.POST getDowHourDetroit startOfDayOf 1000 db body)
     = ReportApi.Accepted
  /\ baselinesOk (snd (ReportApi.POST getDowHourDetroit startOfDayOf 1000 db body)).
Proof.
  intros body db getDowHourDetroit startOfDayOf.
  assert (baselinesOk db) as Hok.
  { intros key b Hb. simpl in Hb. rewrite lookup_empty in Hb. discriminate. }
  assert (fst (ReportApi.POST getDowHourDetroit startOfDayOf 1000 db body)
          = ReportApi.Accepted) as Hacc by reflexivity.
  split; [exact Hok | split; [exact Hacc |]].
  apply (baseline_running_mean getDowHourDetroit startOfDayOf 1000 db body Hok Hacc).
Defined.

(** ** The alert run route *)

Section AlertRun.
Local Open Scope R_scope.
Import AlertsRun.

Lemma inCooldown_spec now sub :
  inCooldown now sub = true
  <-> exists t, Sub.last_triggered_at sub = Some t /\ (now - t < 3600000)%Z.
Proof.
  unfold inCooldown. destruct (Sub.last_triggered_at sub) as [t |].
  - rewrite ltb_true. split.
    + intros H. exists t. split; [reflexivity |].
      apply lt_IZR. lra.
    + intros (t' & [= <-] & H). apply IZR_lt in H. lra.
  - split; [discriminate | intros (t & ? & _); discriminate].
Qed.

Lemma step_in_cooldown now rd rbv vm sub st :
  inCooldown now sub = true -> step now rd rbv vm sub st = st.
Proof. intros H. unfold step. rewrite H. reflexivity. Qed.

(** A step only ever appends to the trace and adds to the count. *)
Lemma step_extends now rd rbv vm sub st :
  exists es, trace (step now rd rbv vm sub st) = trace st ++ es
             /\ (count st <= count (step now rd rbv vm sub st))%Z
             /\ (forall i stamp, In (UpdateLastTriggered i stamp) es ->
                   i = Sub.id sub /\ inCooldown now sub = false).
Proof.
  unfold step. destruct (inCooldown now sub) eqn:Hc.
  - exists []. rewrite app_nil_r. split; [reflexivity | split; [lia |]]. intros ? ? [].
  - destruct (negb _).
    + exists []. rewrite app_nil_r. split; [reflexivity | split; [lia |]].
      intros ? ? [].
    + eexists. split; [reflexivity | split; [simpl; lia |]].
      intros i stamp [H | [H | []]]; [discriminate |].
      injection H as <- _. split; reflexivity.
Qed.

(** What holds before the loop and is kept by every step holds after it. *)
Lemma loop_invariant (P : State -> Prop) now clock i rbv vm subs st :
  (forall sub rd st', In sub subs -> P st' -> P (step now rd rbv vm sub st')) ->
  P st -> P (loop now clock i rbv vm subs st).
Proof.
  revert i st. induction subs as [|sub subs IH]; intros i st Hstep Hst; simpl.
  - exact Hst.
  - apply IH.
    + intros sub' rd st' Hin. apply Hstep. by right.
    + apply Hstep; [by left | exact Hst].
Qed.

(** An effect of some kind that the step of some subscription always
    emits is in the trace of the whole loop. *)
Lemma loop_emits (Q : Effect -> Prop) now clock i rbv vm subs st sub :
  In sub subs ->
  (forall rd st', exists e, Q e /\ In e (trace (step now rd rbv vm sub st'))) ->
  exists e, Q e /\ In e (trace (loop now clock i rbv vm subs st)).
Proof.
  intros Hin He. revert i st. induction subs as [|s subs IH]; intros i st.
  - destruct Hin.
  - simpl. destruct Hin as [-> | Hin]; [| by apply IH].
    destruct (He (clock i) st) as (e & Hq & Hin).
    exists e. split; [exact Hq |].
    apply (loop_invariant (fun st' => In e (trace st'))); [| exact Hin].
    intros s rd st' _ Hst'.
    destruct (step_extends now rd rbv vm s st') as (es & -> & _).
    apply in_or_app. by left.
Qed.

(** A subscription whose step always counts makes the loop count. *)
Lemma loop_counts now clock i rbv vm subs st sub :
  In sub subs ->
  (forall rd st', count (step now rd rbv vm sub st') = (count st' + 1)%Z) ->
  (count st + 1 <= count (loop now clock i rbv vm subs st))%Z.
Proof.
  intros Hin Hc. revert i st. induction subs as [|s subs IH]; intros i st.
  - destruct Hin.
  - simpl. destruct Hin as [-> | Hin].
    + apply (loop_invariant (fun st' => (count st + 1 <= count st')%Z)).
      * intros s rd st' _ Hst'.
        destruct (step_extends now rd rbv vm s st') as (_ & _ & Hle & _). lia.
      * rewrite Hc. lia.
    + specialize (IH Hin (S i) (step now (clock i) rbv vm s st)).
      destruct (step_extends now (clock i) rbv vm s st) as (_ & _ & Hle & _). lia.
Qed.

(** The rows of the bulk report query come from the table and are recent. *)
Lemma In_insertDesc r x rows : In r (insertDesc x rows) <-> r = x \/ In r rows.
Proof.
  induction rows as [|y rows IH]; simpl.
  - intuition.
  - destruct (ReportRow.created_at y <? ReportRow.created_at x)%Z; simpl; [intuition |].
    rewrite IH. intuition.
Qed.

Lemma In_orderDesc r rows : In r (orderDesc rows) <-> In r rows.
Proof.
  induction rows as [|x rows IH]; simpl; [reflexivity |].
  rewrite In_insertDesc, IH. intuition.
Qed.

Lemma In_take {A} (x : A) k l : In x (take k l) -> In x l.
Proof.
  revert k. induction l as [|y l IH]; intros [|k]; simpl; try tauto.
  intros [-> | H]; [by left | right; eauto].
Qed.

Lemma In_recentReports r sinceNow venueIds rows :
  In r (recentReports sinceNow venueIds rows) ->
  In r rows /\ (sinceNow - 10800000 <= ReportRow.created_at r)%Z.
Proof.
  unfold recentReports. intros H%In_take%In_orderDesc%filter_In.
  destruct H as [Hin H]. apply andb_true_iff in H as [_ H]. split; [exact Hin | lia].
Qed.

(** A venue without rows has no entry in the grouping. *)
Lemma groupByVenue_absent rows venue :
  (forall r, In r rows -> ReportRow.venue_id r <> venue) ->
  groupByVenue rows !! venue = None.
Proof.
  unfold groupByVenue.
  assert (forall (m : gmap string (list Report)),
             m !! venue = None ->
             (forall r, In r rows -> ReportRow.venue_id r <> venue) ->
             fold_left
               (fun m r =>
                  <[ReportRow.venue_id r :=
                      default [] (m !! ReportRow.venue_id r)
                      ++ [{| status := ReportRow.status r; created_at := ReportRow.created_at r |}]]>
                    m) rows m !! venue = None) as Hgen.
  { induction rows as [|r rows IH]; intros m Hm Hrows; simpl; [exact Hm |].
    apply IH.
    - rewrite lookup_insert_ne; [exact Hm | apply Hrows; by left].
    - intros r' Hr'. apply Hrows. by right. }
  intros Hrows. apply Hgen; [apply lookup_empty | exact Hrows].
Qed.

(** A trace without update for a row leaves the row in the store. *)
Lemma setLastTriggered_other i stamp table s :
  In s table -> Sub.id s <> i -> In s (setLastTriggered i stamp table).
Proof.
  intros Hs Hne. unfold setLastTriggered. apply in_map_iff.
  exists s. split; [| exact Hs]. case_bool_decide; [contradiction | reflexivity].
Qed.

Lemma applyTrace_keeps es table s :
  (forall stamp, ~ In (UpdateLastTriggered (Sub.id s) stamp) es) ->
  In s table -> In s (applyTrace es table).
Proof.
  unfold applyTrace. revert table.
  induction es as [|e es IH]; intros table Hno Hs; simpl; [exact Hs |].
  apply IH.
  - intros stamp H. apply (Hno stamp). by right.
  - destruct e as [? ? ? | i stamp]; simpl; [exact Hs |].
    apply setLastTriggered_other; [exact Hs |].
    intros <-. apply (Hno stamp). by left.
Qed.

End AlertRun.

Section AlertClaims.
Local Open Scope R_scope.
Import AlertsRun.

(** C4. A subscription whose last trigger is less than 60 minutes before the
    evaluation instant is skipped: its step changes nothing, the run records
    no update of its last-triggered time and its row is in the store
    unchanged after the run. This covers a last trigger 59 minutes ago.
    A subscription whose last trigger is 60 minutes or more ago, such as 61
    minutes, is out of cooldown: its step fires, logging the alert and
    stamping the subscription, exactly when its threshold condition holds. *)
Theorem alert_cooldown (sinceNow now : Z) (clock : nat -> Readings) (db : Db)
    (sub : Sub.t) (t : Z) :
  In sub (alert_subscriptions db) ->
  Sub.last_triggered_at sub = Some t ->
  ((now - t < 3600000)%Z ->
   (forall rd rbv vm st, step now rd rbv vm sub st = st)
   /\ ((forall s, In s (alert_subscriptions db) -> Sub.id s = Sub.id sub -> s = sub) ->
       (forall stamp,
           ~ In (UpdateLastTriggered (Sub.id sub) stamp)
                (snd (POST sinceNow now clock db)))
       /\ In sub (applyTrace (snd (POST sinceNow now clock db))
                             (alert_subscriptions db))))
  /\ ((3600000 <= now - t)%Z ->
      inCooldown now sub = false
      /\ forall rd rbv vm st,
          let label :=
            Scoring.labelFromScore
              (Scoring.computeDecayedScore (score_now rd)
                 (default [] (rbv !! Sub.venue_id sub))) in
          step now rd rbv vm sub st
          = if shouldTrigger (Sub.threshold sub) (Scoring.labelToNumber label)
            then {| count := count st + 1;
                    trace := trace st
                      ++ [ConsoleLog (default "Unknown venue" (vm !! Sub.venue_id sub))
                                     label (Sub.device_id sub);
                          UpdateLastTriggered (Sub.id sub) (stamp_now rd)] |}
            else st).
Proof.
  intros Hin Hlast. split.
  - intros Hlt.
    assert (inCooldown now sub = true) as Hcool.
    { apply inCooldown_spec. eauto. }
    split.
    + intros rd rbv vm st. apply step_in_cooldown, Hcool.
    + intros Huniq.
      assert (forall stamp,
                 ~ In (UpdateLastTriggered (Sub.id sub) stamp)
                      (snd (POST sinceNow now clock db))) as Hno;
        [| split; [exact Hno | by apply applyTrace_keeps]].
      intros stamp. unfold POST.
      destruct (Z.of_nat (length (List.filter Sub.active (alert_subscriptions db)))
                =? 0)%Z; simpl; [tauto |].
      apply (loop_invariant
               (fun st => ~ In (UpdateLastTriggered (Sub.id sub) stamp) (trace st)));
        [| simpl; tauto].
      intros s rd st' Hs Hst'.
      destruct (step_extends now rd
                  (groupByVenue
                     (recentReports sinceNow
                        (remove_dups (map Sub.venue_id
                           (List.filter Sub.active (alert_subscriptions db))))
                        (reports db)))
                  (venueMapOf
                     (List.filter
                        (fun v => bool_decide
                           (v.1 ∈ remove_dups (map Sub.venue_id
                              (List.filter Sub.active (alert_subscriptions db)))))
                        (venues db)))
                  s st') as (es & -> & _ & Hes).
      intros [H | H]%in_app_or; [by apply Hst' |].
      apply Hes in H as [Hid Hout].
      apply filter_In in Hs as [Hs _].
      rewrite (Huniq s Hs (eq_sym Hid)) in Hout. congruence.
  - intros Hge.
    assert (inCooldown now sub = false) as Hout.
    { destruct (inCooldown now sub) eqn:Hc; [| reflexivity].
      apply inCooldown_spec in Hc as (t' & Ht' & Hlt).
      rewrite Hlast in Ht'. injection Ht' as <-. lia. }
    split; [exact Hout |].
    intros rd rbv vm st label. unfold step. rewrite Hout. fold label.
    destruct (shouldTrigger _ _); reflexivity.
Qed.

Lemma alert_cooldown_witness :
  let sub := {| Sub.id := "s1"; Sub.venue_id := "v1"; Sub.device_id := "d1";
                Sub.threshold := 2; Sub.active := true; Sub.created_at := 0;
                Sub.last_triggered_at := Some 0%Z |} in
  let db := {| alert_subscriptions := [sub]; venues := [("v1", "Rick's")];
               reports := [] |} in
  In sub (alert_subscriptions db)
  /\ Sub.last_triggered_at sub = Some 0%Z
  /\ (3540000 - 0 < 3600000)%Z
  /\ (forall rd rbv vm st, step 3540000 rd rbv vm sub st = st)
  /\ (3600000 <= 3660000 - 0)%Z
  /\ inCooldown 3660000 sub = false.
Proof.
  intros sub db.
  assert (In sub (alert_subscriptions db)) as Hin by (left; reflexivity).
  assert (Sub.last_triggered_at sub = Some 0%Z) as Hlast by reflexivity.
  assert (3540000 - 0 < 3600000)%Z as H59 by lia.
  assert (3600000 <= 3660000 - 0)%Z as H61 by lia.
  pose (clock := fun _ : nat => {| score_now := 0; stamp_now := 0 |}).
  split; [exact Hin | split; [exact Hlast | split; [exact H59 |]]].
  split.
  - exact (proj1 (proj1 (alert_cooldown 0 3540000 clock db sub 0 Hin Hlast) H59)).
  - split; [exact H61 |].
    exact (proj1 (proj2 (alert_cooldown 0 3660000 clock db sub 0 Hin Hlast) H61)).
Defined.

(** C10. For a venue without any report in the trailing 3 hours the run
    scores the empty list: signal 2, label Medium, ordinal 2. Every active
    subscription of that venue that is out of cooldown and has threshold 2
    therefore fires: the run logs a Medium alert for its device, stamps the
    subscription and counts at least one trigger. *)
Theorem no_reports_fire_threshold_two (sinceNow now : Z) (clock : nat -> Readings)
    (db : Db) (sub : Sub.t) :
  In sub (alert_subscriptions db) ->
  Sub.active sub = true ->
  inCooldown now sub = false ->
  Sub.threshold sub = 2%Z ->
  (forall r, In r (reports db) -> ReportRow.venue_id r = Sub.venue_id sub ->
             (ReportRow.created_at r < sinceNow - 10800000)%Z) ->
  let subscriptions := List.filter Sub.active (alert_subscriptions db) in
  let venueIds := remove_dups (map Sub.venue_id subscriptions) in
  let reportsByVenue := groupByVenue (recentReports sinceNow venueIds (reports db)) in
  let venueReports := default [] (reportsByVenue !! Sub.venue_id sub) in
  venueReports = []
  /\ (forall scoreNow,
        Scoring.computeDecayedScore scoreNow venueReports = 2
        /\ Scoring.labelFromScore (Scoring.computeDecayedScore scoreNow venueReports)
           = Medium
        /\ Scoring.labelToNumber
             (Scoring.labelFromScore
                (Scoring.computeDecayedScore scoreNow venueReports)) = 2%Z)
  /\ (exists venueName,
        In (ConsoleLog venueName Medium (Sub.device_id sub))
           (snd (POST sinceNow now clock db)))
  /\ (exists stamp,
        In (UpdateLastTriggered (Sub.id sub) stamp) (snd (POST sinceNow now clock db)))
  /\ (1 <= triggered (fst (POST sinceNow now clock db)))%Z.
Proof.
  intros Hin Hact Hout Hthr Hnone subscriptions venueIds reportsByVenue venueReports.
  assert (venueReports = []) as Hempty.
  { unfold venueReports, reportsByVenue. rewrite groupByVenue_absent; [reflexivity |].
    intros r [Hr Hsince]%In_recentReports Hv.
    specialize (Hnone r Hr Hv). lia. }
  assert (In sub subscriptions) as Hsub.
  { apply filter_In. split; assumption. }
  set (venueMap := venueMapOf
         (List.filter (fun v => bool_decide (v.1 ∈ venueIds)) (venues db))).
  assert (forall rd st,
             step now rd reportsByVenue venueMap sub st
             = {| count := count st + 1;
                  trace := trace st
                    ++ [ConsoleLog (default "Unknown venue" (venueMap !! Sub.venue_id sub))
                                   Medium (Sub.device_id sub);
                        UpdateLastTriggered (Sub.id sub) (stamp_now rd)] |}) as Hstep.
  { intros rd st. unfold step. rewrite Hout. fold venueReports. rewrite Hempty.
    rewrite computeDecayedScore_nil, labelFromScore_2, Hthr. reflexivity. }
  assert (POST sinceNow now clock db
          = ({| processed := Z.of_nat (length subscriptions);
                triggered := count (loop now clock 0 reportsByVenue venueMap
                                         subscriptions {| count := 0; trace := [] |}) |},
             trace (loop now clock 0 reportsByVenue venueMap subscriptions
                         {| count := 0; trace := [] |}))) as HPOST.
  { unfold POST. fold subscriptions.
    destruct (Z.eqb_spec (Z.of_nat (length subscriptions)) 0) as [Hlen |]; [| reflexivity].
    destruct subscriptions; [destruct Hsub | simpl in Hlen; lia]. }
  split; [exact Hempty |]. split; [| split; [| split]].
  - intros scoreNow. rewrite Hempty, computeDecayedScore_nil, labelFromScore_2.
    repeat split.
  - rewrite HPOST. simpl.
    destruct (loop_emits
                (fun e => e = ConsoleLog (default "Unknown venue"
                                            (venueMap !! Sub.venue_id sub))
                                         Medium (Sub.device_id sub))
                now clock 0 reportsByVenue venueMap subscriptions
                {| count := 0; trace := [] |} sub Hsub) as (e & -> & He).
    + intros rd st'. eexists. split; [reflexivity |].
      rewrite Hstep. simpl. apply in_or_app. right. by left.
    + eauto.
  - rewrite HPOST. simpl.
    destruct (loop_emits
                (fun e => exists stamp, e = UpdateLastTriggered (Sub.id sub) stamp)
                now clock 0 reportsByVenue venueMap subscriptions
                {| count := 0; trace := [] |} sub Hsub) as (e & [stamp ->] & He).
    + intros rd st'. eexists. split; [eexists; reflexivity |].
      rewrite Hstep. simpl. apply in_or_app. right. right. by left.
    + eauto.
  - rewrite HPOST. simpl.
    pose proof (loop_counts now clock 0 reportsByVenue venueMap subscriptions
                  {| count := 0; trace := [] |} sub Hsub) as Hc.
    simpl in Hc. apply Hc. intros rd st'. rewrite Hstep. reflexivity.
Qed.

Lemma no_reports_fire_threshold_two_witness :
  let sub := {| Sub.id := "s1"; Sub.venue_id := "v1"; Sub.device_id := "d1";
                Sub.threshold := 2; Sub.active := true; Sub.created_at := 0;
                Sub.last_triggered_at := None |} in
  let db := {| alert_subscriptions := [sub]; venues := [("v1", "Rick's")];
               reports := [] |} in
  let clock := fun _ : nat => {| score_now := 1000; stamp_now := 1001 |} in
  In sub (alert_subscriptions db)
  /\ Sub.active sub = true
  /\ inCooldown 1000 sub = false
  /\ Sub.threshold sub = 2%Z
  /\ (1 <= triggered (fst (POST 999 1000 clock db)))%Z.
Proof.
  intros sub db clock.
  assert (In sub (alert_subscriptions db)) as Hin by (left; reflexivity).
  assert (forall r, In r (reports db) -> ReportRow.venue_id r = Sub.venue_id sub ->
                    (ReportRow.created_at r < 999 - 10800000)%Z) as Hnone.
  { intros r []. }
  repeat (split; [first [exact Hin | reflexivity] |]).
  apply (no_reports_fire_threshold_two 999 1000 clock db sub Hin
           eq_refl eq_refl eq_refl Hnone).
Defined.

End AlertClaims.

(** ** The subscribe route *)

Section Subscribe.
Import SubscribeApi.

Lemma filter_and {A} (p q : A -> bool) (l : list A) :
  List.filter (fun x => p x && q x) l = List.filter q (List.filter p l).
Proof.
  induction l as [|x l IH]; simpl; [reflexivity |].
  destruct (p x); simpl; [destruct (q x) |]; rewrite IH; reflexivity.
Qed.

Lemma sameTriple_spec venue device thresh s :
  Sub.sameTriple venue device thresh s = true
  <-> Sub.venue_id s = venue /\ Sub.device_id s = device /\ Sub.threshold s = thresh.
Proof.
  unfold Sub.sameTriple.
  rewrite !andb_true_iff, !bool_decide_eq_true, Z.eqb_eq. tauto.
Qed.

(** The route on a body that passes validation. *)
Lemma subscribe_POST_valid uniqueSubscription newId now table body :
  validSubscribeBody body ->
  POST uniqueSubscription newId now table body
  = match
      maybeSingle
        (List.filter Sub.active
           (rowsOf (venue_id body) (device_id body) (threshold body) table))
    with
    | ManyRows => (ServerError, table)
    | OneRow existing => (Subscribed, activate (Sub.id existing) table)
    | NoRow =>
        match insert uniqueSubscription (freshSubscription newId now body) table with
        | None => (ServerError, table)
        | Some table' => (Subscribed, table')
        end
    end.
Proof.
  intros (Hv & Hd & Ht). unfold POST.
  rewrite (bool_decide_eq_false_2 _ Hv), (bool_decide_eq_false_2 _ Hd).
  replace (threshold body =? 0)%Z with false by (symmetry; apply Z.eqb_neq; lia).
  rewrite bool_decide_eq_true_2 by (rewrite !elem_of_cons; tauto).
  simpl. rewrite filter_and. reflexivity.
Qed.

(** Rows are told apart by their id. *)
Lemma same_id_same_row (table : list Sub.t) (x y : Sub.t) :
  NoDup (map Sub.id table) -> In x table -> In y table -> Sub.id x = Sub.id y -> x = y.
Proof.
  induction table as [|s table IH]; simpl; [tauto |].
  intros [Hnot Hnd]%NoDup_cons [-> | Hx] [-> | Hy] Hid; auto.
  - exfalso. apply Hnot. rewrite Hid. apply list_elem_of_In, in_map, Hy.
  - exfalso. apply Hnot. rewrite <- Hid. apply list_elem_of_In, in_map, Hx.
Qed.

Lemma activate_active i table :
  (forall s, In s table -> Sub.id s = i -> Sub.active s = true) ->
  activate i table = table.
Proof.
  intros H. unfold activate. rewrite <- (map_id table) at 2.
  apply map_ext_in. intros s Hs. case_bool_decide as Hi; [| reflexivity].
  specialize (H s Hs Hi). destruct s; simpl in *. subst. reflexivity.
Qed.

(** X17. Subscribing again while the subscription is active changes nothing. *)
Lemma resubscribe_active uniqueSubscription newId now table body row :
  validSubscribeBody body ->
  NoDup (map Sub.id table) ->
  rowsOf (venue_id body) (device_id body) (threshold body) table = [row] ->
  Sub.active row = true ->
  POST uniqueSubscription newId now table body = (Subscribed, table).
Proof.
  intros Hv Hnd Hrows Hact.
  rewrite (subscribe_POST_valid _ _ _ _ _ Hv), Hrows. simpl. rewrite Hact. simpl.
  rewrite activate_active; [reflexivity |].
  intros s Hs Hid.
  assert (In row table) as Hrow.
  { assert (In row (rowsOf (venue_id body) (device_id body) (threshold body) table))
      as H by (rewrite Hrows; by left).
    apply filter_In in H. tauto. }
  rewrite (same_id_same_row table s row Hnd Hs Hrow Hid). exact Hact.
Qed.

(** C1, where the code departs from it. When the only row of the triple is
    inactive the route does not reactivate it. Under the unique constraint of
    the schema the insert is refused: the answer is a server error and the
    row stays inactive. Without the constraint a second row is inserted for
    the same triple. *)
Theorem resubscribe_inactive (uniqueSubscription : bool) (newId : string) (now : Z)
    (table : list Sub.t) (body : Body) (row : Sub.t) :
  validSubscribeBody body ->
  rowsOf (venue_id body) (device_id body) (threshold body) table = [row] ->
  Sub.active row = false ->
  let result := POST uniqueSubscription newId now table body in
  let rows' := rowsOf (venue_id body) (device_id body) (threshold body) (snd result) in
  if uniqueSubscription
  then result = (ServerError, table) /\ rows' = [row]
       /\ List.filter Sub.active rows' = []
  else result = (Subscribed, table ++ [freshSubscription newId now body])
       /\ rows' = [row; freshSubscription newId now body]
       /\ length rows' = 2%nat.
Proof.
  intros Hv Hrows Hact result rows'.
  assert (Sub.sameTriple (venue_id body) (device_id body) (threshold body)
            (freshSubscription newId now body) = true) as Hfresh.
  { apply sameTriple_spec. repeat split. }
  assert (existsb (Sub.sameTriple (venue_id body) (device_id body) (threshold body))
            table = true) as Hex.
  { apply existsb_exists. exists row.
    assert (In row (rowsOf (venue_id body) (device_id body) (threshold body) table))
      as H by (rewrite Hrows; by left).
    apply filter_In in H. exact H. }
  assert (result
          = match insert uniqueSubscription (freshSubscription newId now body) table with
            | None => (ServerError, table)
            | Some table' => (Subscribed, table')
            end) as Hres.
  { unfold result. rewrite (subscribe_POST_valid _ _ _ _ _ Hv), Hrows.
    simpl. rewrite Hact. reflexivity. }
  unfold insert in Hres. simpl in Hres. rewrite Hex in Hres.
  destruct uniqueSubscription; simpl in Hres.
  - unfold rows'. rewrite Hres. simpl. rewrite Hrows. simpl. rewrite Hact. auto.
  - assert (rows' = [row; freshSubscription newId now body]) as Hrows'.
    { unfold rows'. rewrite Hres. simpl. unfold rowsOf.
      rewrite List.filter_app. fold (rowsOf (venue_id body) (device_id body)
                                       (threshold body) table).
      rewrite Hrows. simpl. rewrite Hfresh. reflexivity. }
    rewrite Hrows'. auto.
Qed.

Lemma resubscribe_inactive_witness :
  let row := {| Sub.id := "s1"; Sub.venue_id := "v1"; Sub.device_id := "d1";
                Sub.threshold := 2; Sub.active := false; Sub.created_at := 0;
                Sub.last_triggered_at := None |} in
  let body := {| venue_id := "v1"; device_id := "d1"; threshold := 2 |} in
  validSubscribeBody body
  /\ rowsOf "v1" "d1" 2 [row] = [row]
  /\ POST true "s2" 1000 [row] body = (ServerError, [row])
  /\ POST false "s2" 1000 [row] body
     = (Subscribed, [row; freshSubscription "s2" 1000 body]).
Proof.
  intros row body.
  assert (validSubscribeBody body) as Hv.
  { unfold validSubscribeBody. simpl. repeat split; try discriminate. by right. }
  assert (rowsOf (venue_id body) (device_id body) (threshold body) [row] = [row])
    as Hrows by reflexivity.
  split; [exact Hv | split; [exact Hrows | split]].
  - exact (proj1 (resubscribe_inactive true "s2" 1000 [row] body row Hv Hrows eq_refl)).
  - exact (proj1 (resubscribe_inactive false "s2" 1000 [row] body row Hv Hrows eq_refl)).
Defined.

End Subscribe.


(** * Further properties of the code *)

(** ** The scorer and the classifier *)

Section ScoringExtras.
Local Open Scope R_scope.
Import Scoring.

Lemma sumOf_positive {A} (f : A -> R) (l : list A) :
  (forall x, 0 < f x) -> l <> [] -> 0 < sumOf f l.
Proof.
  intros Hf Hl. destruct l as [|x l]; [done |]. simpl.
  pose proof (sumOf_nonneg f l (fun y => Rlt_le _ _ (Hf y))).
  specialize (Hf x). lra.
Qed.

Lemma sumOf_ext_in {A} (f g : A -> R) (l : list A) :
  (forall x, In x l -> f x = g x) -> sumOf f l = sumOf g l.
Proof.
  induction l as [|x l IH]; intros H; simpl; [reflexivity |].
  rewrite (H x) by (by left). rewrite IH; [reflexivity |].
  intros y Hy. apply H. by right.
Qed.

Lemma sumOf_scale {A} (f : A -> R) (c : R) (l : list A) :
  sumOf (fun x => f x * c) l = c * sumOf f l.
Proof. induction l as [|x l IH]; simpl; [lra | rewrite IH; lra]. Qed.


Lemma labelFromScore_mono (x y : R) :
  x <= y ->
  (labelToNumber (labelFromScore x) <= labelToNumber (labelFromScore y))%Z.
Proof.
  intros Hxy. unfold labelFromScore.
  repeat js_case; simpl; try lia; lra.
Qed.

(** X1. The label never goes down when the score goes up, and the four labels
    are the score ranges below 1.6, below 2.4, below 3.2 and from 3.2 on. *)
Theorem label_monotone (x y : R) :
  x <= y ->
  (labelToNumber (labelFromScore x) <= labelToNumber (labelFromScore y))%Z
  /\ (labelFromScore x = Low <-> x < 1.6)
  /\ (labelFromScore x = Medium <-> 1.6 <= x < 2.4)
  /\ (labelFromScore x = High <-> 2.4 <= x < 3.2)
  /\ (labelFromScore x = Insane <-> 3.2 <= x).
Proof.
  intros Hxy. split; [exact (labelFromScore_mono x y Hxy) |].
  unfold labelFromScore.
  repeat js_case; repeat split; intros; try discriminate; try lra.
Qed.

Lemma label_monotone_witness :
  1.5 <= 2.5
  /\ (labelToNumber (labelFromScore 1.5) <= labelToNumber (labelFromScore 2.5))%Z.
Proof.
  assert (1.5 <= 2.5) as H by lra.
  split; [exact H | exact (proj1 (label_monotone 1.5 2.5 H))].
Defined.

(** X2. The level a user picks, sent as a number and classified again, is the
    level picked; the button and the alert run number the levels alike. *)
Theorem level_round_trip (l : CrowdLabel) :
  labelFromScore (IZR (Pages.toNumber l)) = l
  /\ Pages.toNumber l = labelToNumber l
  /\ (1 <= Pages.toNumber l <= 4)%Z.
Proof.
  split; [| split; [destruct l; reflexivity | destruct l; simpl; lia]].
  unfold labelFromScore. destruct l; simpl; repeat js_case; try reflexivity; lra.
Qed.

Lemma score_of_one_status (now s : Z) (reports : list Report) :
  reports <> [] ->
  Forall (fun r => status r = s) reports ->
  computeDecayedScore now reports = IZR s.
Proof.
  intros Hne Hall. rewrite computeDecayedScore_sum.
  set (c := consensusOf now reports).
  assert (0 < sumOf (dampedWeight now c) reports) as HW.
  { apply sumOf_positive; [apply dampedWeight_pos | exact Hne]. }
  rewrite (sumOf_ext_in (fun r => dampedWeight now c r * IZR (status r))
                        (fun r => dampedWeight now c r * IZR s)).
  2:{ intros r Hr. rewrite Forall_forall in Hall.
      rewrite (Hall r) by (apply list_elem_of_In, Hr). reflexivity. }
  rewrite sumOf_scale. js_case; [field; lra | lra].
Qed.

(** X3. Reports that all carry one status give that status as the signal, at
    whatever times they were made, and so the label of that level when the
    status is the number of a level. *)
Theorem unanimous_score (now s : Z) (reports : list Report) :
  reports <> [] ->
  Forall (fun r => status r = s) reports ->
  computeDecayedScore now reports = IZR s
  /\ (forall l, s = Pages.toNumber l ->
        labelFromScore (computeDecayedScore now reports) = l).
Proof.
  intros Hne Hall.
  pose proof (score_of_one_status now s reports Hne Hall) as Hs.
  split; [exact Hs |].
  intros l ->. rewrite Hs. unfold labelFromScore.
  destruct l; simpl; repeat js_case; try reflexivity; lra.
Qed.

Lemma unanimous_score_witness :
  let reports := [ {| status := 3; created_at := 0 |};
                   {| status := 3; created_at := 5000000 |} ] in
  reports <> [] /\ computeDecayedScore 6000000 reports = 3.
Proof.
  intros reports.
  assert (reports <> []) as Hne by discriminate.
  split; [exact Hne |].
  refine (proj1 (unanimous_score 6000000 3 reports Hne _)).
  repeat constructor.
Defined.



Lemma quickWeight_nonneg now r : 0 <= quickWeight now r.
Proof.
  unfold quickWeight. js_case; [left; apply baseWeightOf_pos | lra].
Qed.

(** X5. The quick consensus is one of the four levels. *)
Theorem consensus_in_range (now : Z) (reports : list Report) :
  Forall validStatus reports -> (1 <= consensusOf now reports <= 4)%Z.
Proof.
  intros Hv. unfold consensusOf.
  destruct (0 <? Z.of_nat (length reports))%Z; [| lia].
  rewrite quickSums_sum. simpl. rewrite !Rplus_0_l.
  js_case; [| lia].
  pose proof (sumOf_between (quickWeight now) (fun r => IZR (status r))
                validStatus 1 4 reports) as Hb.
  destruct Hb as [Hlo Hhi]; [apply quickWeight_nonneg | | exact Hv |].
  { intros r [H1 H4]. split; apply IZR_le; assumption. }
  set (W := sumOf (quickWeight now) reports) in *.
  set (S := sumOf (fun r => quickWeight now r * IZR (status r)) reports) in *.
  assert (1 <= S / W <= 4) as [Hq1 Hq4].
  { split; apply Rmult_le_reg_r with (1 := E); unfold Rdiv;
      rewrite Rmult_assoc, Rinv_l by lra; lra. }
  pose proof (round_bounds (S / W)) as [Hr1 Hr2].
  set (k := JsMath.round (S / W)) in *. clearbody k W S.
  assert (IZR 0 < IZR k) as Hk0 by lra.
  assert (IZR k < IZR 5) as Hk5 by lra.
  apply lt_IZR in Hk0, Hk5. lia.
Qed.

Lemma consensus_in_range_witness :
  let reports := [ {| status := 1; created_at := 0 |};
                   {| status := 4; created_at := 60000 |} ] in
  Forall validStatus reports /\ (1 <= consensusOf 120000 reports <= 4)%Z.
Proof.
  intros reports.
  assert (Forall validStatus reports) as Hv.
  { repeat constructor; unfold validStatus; simpl; lia. }
  split; [exact Hv | exact (consensus_in_range 120000 reports Hv)].
Defined.

(** X6. With no report of the last 30 minutes the consensus falls back to 2, so
    among the four levels exactly the reports of status 4 are damped. *)
Theorem stale_reports_consensus (now : Z) (reports : list Report) :
  Forall (fun r => 30 < ageMinOf now (created_at r)) reports ->
  consensusOf now reports = 2%Z
  /\ (forall r, validStatus r ->
        dampedWeight now (consensusOf now reports) r
        = baseWeightOf (ageMinOf now (created_at r))
          * (if (status r =? 4)%Z then 0.25 else 1)).
Proof.
  intros Hold.
  assert (consensusOf now reports = 2%Z) as Hc.
  { unfold consensusOf. destruct (0 <? Z.of_nat (length reports))%Z; [| reflexivity].
    rewrite quickSums_sum. simpl. rewrite !Rplus_0_l.
    rewrite (sumOf_ext_in (quickWeight now) (fun _ => 0)).
    2:{ intros r Hr. rewrite Forall_forall in Hold.
        specialize (Hold r (proj2 (list_elem_of_In _ _) Hr)).
        unfold quickWeight. js_case; [lra | reflexivity]. }
    assert (sumOf (fun _ : Report => 0) reports = 0) as ->.
    { induction reports as [|r l IH]; simpl; [reflexivity |].
      rewrite IH; [lra | by inversion Hold]. }
    js_case; [lra | reflexivity]. }
  split; [exact Hc |].
  intros r [H1 H4]. rewrite Hc. unfold dampedWeight, outlierMultiplier.
  destruct (Z.eqb_spec (status r) 4) as [-> | Hne]; simpl; [reflexivity |].
  destruct (Z.geb_spec (Z.abs (status r - 2)) 2); [lia | lra].
Qed.

Lemma stale_reports_consensus_witness :
  let reports := [ {| status := 4; created_at := 0 |} ] in
  Forall (fun r => 30 < ageMinOf 6000000 (created_at r)) reports
  /\ consensusOf 6000000 reports = 2%Z.
Proof.
  intros reports.
  assert (Forall (fun r => 30 < ageMinOf 6000000 (created_at r)) reports) as H.
  { constructor; [| constructor].
    unfold ageMinOf; cbn [created_at]; rewrite minus_IZR; lra. }
  split; [exact H | exact (proj1 (stale_reports_consensus 6000000 reports H))].
Defined.

End ScoringExtras.

(** ** Confidence, minutes ago, trend and prediction *)

Section ReadPathExtras.
Local Open Scope R_scope.
Import Scoring.

(** [Math.round] of a quotient by 60000 in integer arithmetic. *)
Lemma round_minutes (d : Z) :
  JsMath.round (IZR d / 60000) = ((d + 30000) / 60000)%Z.
Proof.
  apply round_spec.
  pose proof (Z.div_mod (d + 30000) 60000 ltac:(lia)) as Hdm.
  pose proof (Z.mod_pos_bound (d + 30000) 60000 ltac:(lia)) as [Hr0 Hr1].
  set (q := ((d + 30000) / 60000)%Z) in *.
  set (r := ((d + 30000) mod 60000)%Z) in *. clearbody q r.
  assert (IZR d = 60000 * IZR q + IZR r - 30000) as ->.
  { rewrite <- mult_IZR, <- plus_IZR, <- minus_IZR. f_equal. lia. }
  apply IZR_le in Hr0. apply IZR_lt in Hr1. lra.
Qed.

(** X7. The age shown as "minutes ago" is the age in milliseconds plus half a
    minute, divided by a minute and rounded down, and 0 for a date that is
    not in the past; it is never negative and never decreases with time. *)
Theorem minutesAgo_integer (now now' iso : Z) :
  Pages.minutesAgo now iso = Z.max 0 ((now - iso + 30000) / 60000)
  /\ (0 <= Pages.minutesAgo now iso)%Z
  /\ ((now <= iso)%Z -> Pages.minutesAgo now iso = 0%Z)
  /\ ((now <= now')%Z -> (Pages.minutesAgo now iso <= Pages.minutesAgo now' iso)%Z).
Proof.
  assert (forall n, Pages.minutesAgo n iso = Z.max 0 ((n - iso + 30000) / 60000))
    as Hm.
  { intros n. unfold Pages.minutesAgo. rewrite round_minutes. reflexivity. }
  split; [apply Hm | split; [rewrite Hm; lia | split]].
  - intros Hle. rewrite Hm.
    assert ((now - iso + 30000) / 60000 <= 0)%Z.
    { apply Z.lt_succ_r, Z.div_lt_upper_bound; lia. }
    lia.
  - intros Hle. rewrite !Hm.
    assert ((now - iso + 30000) / 60000 <= (now' - iso + 30000) / 60000)%Z.
    { apply Z.div_le_mono; lia. }
    lia.
Qed.

(** X8. A more recent last report or a larger count never lowers the
    confidence, and without any report the confidence is the lowest. *)
Theorem confidence_monotone (now latest1 latest2 count1 count2 : Z) :
  (latest1 <= latest2)%Z -> (count1 <= count2)%Z ->
  (confidenceRank (confidenceFrom now (Some latest1) count1)
   <= confidenceRank (confidenceFrom now (Some latest2) count2))%Z
  /\ confidenceRank (confidenceFrom now None count2) = 0%Z.
Proof.
  intros Hl Hc. split; [| reflexivity].
  rewrite !confidenceFrom_millis.
  repeat match goal with
         | |- context [(?a <? ?b)%Z] => destruct (Z.ltb_spec a b)
         | |- context [(?a >=? ?b)%Z] => destruct (Z.geb_spec a b)
         end; simpl; lia.
Qed.

Lemma confidence_monotone_witness :
  (0 <= 1200000)%Z /\ (3 <= 3)%Z
  /\ (confidenceRank (confidenceFrom 1800000 (Some 0%Z) 3)
      <= confidenceRank (confidenceFrom 1800000 (Some 1200000%Z) 3))%Z.
Proof.
  assert (0 <= 1200000)%Z as Hl by lia.
  assert (3 <= 3)%Z as Hc by lia.
  split; [exact Hl | split; [exact Hc |]].
  exact (proj1 (confidence_monotone 1800000 0 1200000 3 3 Hl Hc)).
Defined.

Lemma filter_nonempty {A} (p : A -> bool) (l : list A) :
  (2 <= length (List.filter p l))%nat -> List.filter p l <> [].
Proof. destruct (List.filter p l); simpl; [lia | discriminate]. Qed.

(** X9. When each window holds at least 2 reports, every report of the current
    window has status [a] and every report of the previous window has status
    [b], the trend is up for a > b, down for a < b and flat for a = b. *)
Theorem trend_of_unanimous_windows (now nowCurrent nowPrevious a b : Z)
    (reports : list Report) :
  (2 <= length (List.filter (fun r => ageMinOf now (created_at r) <=! 30) reports))%nat ->
  (2 <= length (List.filter (fun r => (ageMinOf now (created_at r) >! 30)
                                       && (ageMinOf now (created_at r) <=! 90))
                            reports))%nat ->
  (forall r, In r reports -> ageMinOf now (created_at r) <= 30 -> status r = a) ->
  (forall r, In r reports -> 30 < ageMinOf now (created_at r) <= 90 -> status r = b) ->
  computeTrend now nowCurrent nowPrevious reports
  = if (b <? a)%Z then Up else if (a <? b)%Z then Down else Flat.
Proof.
  intros Hcur Hprev Ha Hb. unfold computeTrend.
  set (cur := List.filter (fun r => ageMinOf now (created_at r) <=! 30) reports) in *.
  set (prev := List.filter (fun r => (ageMinOf now (created_at r) >! 30)
                                     && (ageMinOf now (created_at r) <=! 90))
                           reports) in *.
  destruct (Z.ltb_spec (Z.of_nat (length cur)) 2); [lia |].
  destruct (Z.ltb_spec (Z.of_nat (length prev)) 2); [lia |]. simpl.
  rewrite (score_of_one_status nowCurrent a cur),
    (score_of_one_status nowPrevious b prev).
  - destruct (Z.ltb_spec b a) as [Hba | Hba].
    + assert (IZR (b + 1) <= IZR a) as Hr by (apply IZR_le; lia).
      rewrite plus_IZR in Hr. js_case; [reflexivity | lra].
    + apply IZR_le in Hba as Hr. js_case; [lra |].
      destruct (Z.ltb_spec a b) as [Hab | Hab].
      * assert (IZR (a + 1) <= IZR b) as Hr' by (apply IZR_le; lia).
        rewrite plus_IZR in Hr'. js_case; [reflexivity | lra].
      * apply IZR_le in Hab. js_case; [lra | reflexivity].
  - by apply filter_nonempty.
  - apply Forall_forall. intros r Hr%list_elem_of_In%filter_In.
    destruct Hr as [Hr Hp]. apply andb_true_iff in Hp as [H1 H2].
    apply ltb_true in H1. apply leb_true in H2. by apply Hb.
  - by apply filter_nonempty.
  - apply Forall_forall. intros r Hr%list_elem_of_In%filter_In.
    destruct Hr as [Hr Hp]. apply leb_true in Hp. by apply Ha.
Qed.

Lemma trend_of_unanimous_windows_witness :
  let reports := [ {| status := 3; created_at := 5400000 |};
                   {| status := 3; created_at := 5700000 |};
                   {| status := 1; created_at := 2400000 |};
                   {| status := 1; created_at := 3000000 |} ] in
  computeTrend 6000000 6000001 6000002 reports = Up.
Proof.
  intros reports.
  assert (forall (x y : R), x <= y -> (x <=! y) = true) as Hle
    by (intros; by apply leb_true).
  assert (forall (x y : R), y < x -> (x <=! y) = false) as Hgt
    by (intros; by apply leb_false).
  assert (forall (x y : R), x < y -> (x <! y) = true) as Hlt
    by (intros; by apply ltb_true).
  assert (forall (x y : R), y <= x -> (x <! y) = false) as Hge
    by (intros; by apply ltb_false).
  assert (ageMinOf 6000000 5400000 = 10) as E1
    by (unfold ageMinOf; rewrite minus_IZR; lra).
  assert (ageMinOf 6000000 5700000 = 5) as E2
    by (unfold ageMinOf; rewrite minus_IZR; lra).
  assert (ageMinOf 6000000 2400000 = 60) as E3
    by (unfold ageMinOf; rewrite minus_IZR; lra).
  assert (ageMinOf 6000000 3000000 = 50) as E4
    by (unfold ageMinOf; rewrite minus_IZR; lra).
  apply (trend_of_unanimous_windows 6000000 6000001 6000002 3 1 reports).
  - unfold reports. cbn [List.filter created_at]. rewrite E1, E2, E3, E4.
    rewrite (Hle 10 30), (Hle 5 30), (Hgt 60 30), (Hgt 50 30) by lra. simpl. lia.
  - unfold reports. cbn [List.filter created_at]. rewrite E1, E2, E3, E4.
    rewrite (Hge 30 10), (Hge 30 5), (Hlt 30 60), (Hlt 30 50),
      (Hle 60 90), (Hle 50 90) by lra.
    simpl. lia.
  - intros r Hr Hage. unfold reports in Hr. simpl in Hr.
    destruct Hr as [<- | [<- | [<- | [<- | []]]]]; cbn [created_at status] in *;
      try reflexivity; rewrite ?E3, ?E4 in Hage; lra.
  - intros r Hr Hage. unfold reports in Hr. simpl in Hr.
    destruct Hr as [<- | [<- | [<- | [<- | []]]]]; cbn [created_at status] in *;
      try reflexivity; rewrite ?E1, ?E2 in Hage; lra.
Defined.

(** X10. The predicted level lies between the level of the current signal and
    the level of the baseline. *)
Theorem prediction_between (currentScore baseline : R) :
  (Z.min (labelToNumber (labelFromScore currentScore))
         (labelToNumber (labelFromScore baseline))
   <= labelToNumber (predictLabel currentScore (Some baseline))
   <= Z.max (labelToNumber (labelFromScore currentScore))
            (labelToNumber (labelFromScore baseline)))%Z.
Proof.
  unfold predictLabel, blended.
  set (m := 0.55 * baseline + 0.45 * currentScore).
  destruct (Rle_dec currentScore baseline) as [Hle | Hgt].
  - assert (currentScore <= m <= baseline) as [H1 H2] by (unfold m; lra).
    pose proof (labelFromScore_mono _ _ H1).
    pose proof (labelFromScore_mono _ _ H2). lia.
  - assert (baseline <= m <= currentScore) as [H1 H2] by (unfold m; lra).
    pose proof (labelFromScore_mono _ _ H1).
    pose proof (labelFromScore_mono _ _ H2). lia.
Qed.

End ReadPathExtras.

(** ** The report route: validation, store, daily cap, running mean *)

Section ReportExtras.
Local Open Scope R_scope.
Import ReportApi.

Lemma bucketAfter_seen (ss : list Z) (m : R) (k : Z) :
  (0 < k)%Z ->
  bucketAfter ss (Some {| Baseline.mean_score := m; Baseline.n := k |})
  = Some {| Baseline.mean_score :=
              (m * IZR k + IZR (sumZ ss)) / IZR (k + Z.of_nat (length ss));
            Baseline.n := (k + Z.of_nat (length ss))%Z |}.
Proof.
  revert m k. induction ss as [|s ss IH]; intros m k Hk.
  - simpl. rewrite Z.add_0_r. do 2 f_equal.
    apply IZR_lt in Hk. field. lra.
  - change (bucketAfter (s :: ss) (Some {| Baseline.mean_score := m; Baseline.n := k |}))
      with (bucketAfter ss
              (Some (nextBaseline
                       (Some {| Baseline.mean_score := m; Baseline.n := k |}) s))).
    unfold nextBaseline. cbn [from_option Baseline.mean_score Baseline.n].
    rewrite IH by lia.
    replace (k + 1 + Z.of_nat (length ss))%Z
      with (k + Z.of_nat (length (s :: ss)))%Z by (simpl length; lia).
    do 2 f_equal.
    change (sumZ (s :: ss)) with (s + sumZ ss)%Z.
    rewrite !plus_IZR. apply IZR_lt in Hk.
    assert (0 <= IZR (Z.of_nat (length (s :: ss)))) by (apply IZR_le; lia).
    field. lra.
Qed.

(** X11. The running mean is the mean: an unseen bucket that takes the reports
    of statuses [ss] ends with their arithmetic mean and their number. *)
Theorem running_mean_is_mean (ss : list Z) :
  ss <> [] ->
  bucketAfter ss None
  = Some {| Baseline.mean_score := IZR (sumZ ss) / IZR (Z.of_nat (length ss));
            Baseline.n := Z.of_nat (length ss) |}.
Proof.
  destruct ss as [|s ss]; [done |]. intros _.
  change (bucketAfter (s :: ss) None)
    with (bucketAfter ss (Some (nextBaseline None s))).
  unfold nextBaseline. cbn [from_option]. rewrite bucketAfter_seen by lia.
  replace (0 + 1 + Z.of_nat (length ss))%Z with (Z.of_nat (length (s :: ss)))
    by (simpl length; lia).
  do 2 f_equal.
  change (sumZ (s :: ss)) with (s + sumZ ss)%Z. rewrite !plus_IZR.
  assert (0 < IZR (Z.of_nat (length (s :: ss)))) by (apply IZR_lt; simpl length; lia).
  field. lra.
Qed.

Lemma running_mean_is_mean_witness :
  [1; 4; 4]%Z <> []
  /\ bucketAfter [1; 4; 4]%Z None
     = Some {| Baseline.mean_score := IZR (sumZ [1; 4; 4]%Z) / IZR (Z.of_nat 3);
               Baseline.n := 3 |}.
Proof.
  assert ([1; 4; 4]%Z <> []) as Hne by discriminate.
  split; [exact Hne | exact (running_mean_is_mean [1; 4; 4]%Z Hne)].
Defined.

Lemma lastCreatedAt_exists rows venue device r :
  In r rows -> ReportRow.venue_id r = venue -> ReportRow.device_id r = device ->
  exists t, lastCreatedAt rows venue device = Some t.
Proof.
  intros Hr Hv Hd. unfold lastCreatedAt.
  destruct (List.filter _ rows) as [|r0 rest] eqn:Hf; [| eauto].
  exfalso.
  assert (In r (List.filter
                  (fun r => bool_decide (ReportRow.venue_id r = venue)
                            && bool_decide (ReportRow.device_id r = device)) rows)) as Hin.
  { apply filter_In. split; [exact Hr |].
    rewrite !bool_decide_eq_true_2 by assumption. reflexivity. }
  rewrite Hf in Hin. destruct Hin.
Qed.

(** The last report of a device for a venue, once a report dated [now] is
    appended to rows none of which is dated later. *)
Lemma lastCreatedAt_appended rows row :
  (forall r, In r rows -> (ReportRow.created_at r <= ReportRow.created_at row)%Z) ->
  lastCreatedAt (rows ++ [row]) (ReportRow.venue_id row) (ReportRow.device_id row)
  = Some (ReportRow.created_at row).
Proof.
  intros Hold.
  destruct (lastCreatedAt_exists (rows ++ [row]) (ReportRow.venue_id row)
              (ReportRow.device_id row) row) as [t Ht];
    [apply in_or_app; right; by left | reflexivity | reflexivity |].
  rewrite Ht. f_equal.
  destruct (lastCreatedAt_most_recent _ _ _ _ Ht)
    as [(r & Hr & _ & _ & Hrt) Hmax].
  assert (ReportRow.created_at row <= t)%Z.
  { apply Hmax; [apply in_or_app; right; by left | reflexivity | reflexivity]. }
  assert (t <= ReportRow.created_at row)%Z; [| lia].
  subst t. apply in_app_or in Hr as [Hr | [<- | []]]; [by apply Hold | lia].
Qed.

Lemma countSince_app rows rows' device startOfDay :
  countSince (rows ++ rows') device startOfDay
  = (countSince rows device startOfDay + countSince rows' device startOfDay)%Z.
Proof.
  unfold countSince. rewrite List.filter_app, length_app. lia.
Qed.

Variable getDowHourDetroit : Z -> Z * Z.
Variable startOfDayOf : Z -> Z.

Local Abbreviation POST := (ReportApi.POST getDowHourDetroit startOfDayOf).

(** A request that is not stopped by the validation carried a valid body. *)
Lemma POST_passed now db body :
  fst (POST now db body) <> Missing -> fst (POST now db body) <> InvalidStatus ->
  validBody body.
Proof.
  unfold ReportApi.POST, validBody.
  destruct (bool_decide_reflect (venue_id body = "")) as [Hv | Hv]; simpl; [done |].
  destruct (Z.eqb_spec (status body) 0) as [H0 | H0]; simpl; [done |].
  destruct (bool_decide_reflect (device_id body = "")) as [Hd | Hd]; simpl; [done |].
  destruct (bool_decide_reflect (status body ∈ [1; 2; 3; 4]%Z)) as [Hs | Hs];
    simpl; [| done].
  intros _ _. split; [exact Hv | split; [exact Hd |]].
  rewrite !elem_of_cons in Hs.
  destruct Hs as [-> | [-> | [-> | [-> | Hs]]]]; try lia.
  by apply elem_of_nil in Hs.
Qed.

(** X12. The two validation answers: a missing venue, device or status (0 counts
    as missing) is reported as missing; a present status outside 1..4 is
    reported as invalid. *)
Theorem report_validation (now : Z) (db : Db) (body : Body) :
  (fst (POST now db body) = Missing
   <-> venue_id body = "" \/ status body = 0%Z \/ device_id body = "")
  /\ (fst (POST now db body) = InvalidStatus
      <-> venue_id body <> "" /\ device_id body <> "" /\ status body <> 0%Z
          /\ ~ (1 <= status body <= 4)%Z).
Proof.
  unfold ReportApi.POST.
  destruct (bool_decide_reflect (venue_id body = "")) as [Hv | Hv]; simpl.
  { split; split; [auto | reflexivity | discriminate | tauto]. }
  destruct (Z.eqb_spec (status body) 0) as [H0 | H0]; simpl.
  { split; split; [auto | reflexivity | discriminate | tauto]. }
  destruct (bool_decide_reflect (device_id body = "")) as [Hd | Hd]; simpl.
  { split; split; [auto | reflexivity | discriminate | tauto]. }
  destruct (bool_decide_reflect (status body ∈ [1; 2; 3; 4]%Z)) as [Hs | Hs]; simpl.
  - assert (1 <= status body <= 4)%Z as Hr.
    { rewrite !elem_of_cons in Hs.
      destruct Hs as [-> | [-> | [-> | [-> | Hs]]]]; try lia.
      by apply elem_of_nil in Hs. }
    destruct (cooldownWait _ _); simpl;
      [| destruct (countSince _ _ _ >=? 20)%Z; [| destruct (getDowHourDetroit now)]];
      simpl; (split; split; [discriminate | tauto | discriminate | tauto]).
  - assert (~ (1 <= status body <= 4)%Z) as Hr.
    { intros Hr. apply Hs.
      assert (status body = 1 \/ status body = 2 \/ status body = 3
              \/ status body = 4)%Z as Hc by lia.
      rewrite !elem_of_cons. tauto. }
    split; split; [discriminate | tauto | auto | reflexivity].
Qed.

(** X13. A refused request changes nothing in the store; an accepted one appends
    exactly the submitted report, dated now, and writes one bucket. *)
Theorem report_store_effect (now : Z) (db : Db) (body : Body) :
  let db' := snd (POST now db body) in
  let key := (venue_id body, (getDowHourDetroit now).1, (getDowHourDetroit now).2) in
  (fst (POST now db body) <> Accepted -> db' = db)
  /\ (fst (POST now db body) = Accepted ->
      reports db'
      = reports db ++ [{| ReportRow.venue_id := venue_id body; ReportRow.status := status body;
                          ReportRow.line_outside := line_outside body;
                          ReportRow.device_id := device_id body; ReportRow.created_at := now |}]
      /\ forall key', key' <> key ->
           venue_baselines db' !! key' = venue_baselines db !! key').
Proof.
  intros db' key. unfold db', key, ReportApi.POST.
  destruct (_ || _ || _); [split; [reflexivity | discriminate] |].
  destruct (negb _); [split; [reflexivity | discriminate] |].
  destruct (cooldownWait _ _); [split; [reflexivity | discriminate] |].
  destruct (countSince _ _ _ >=? 20)%Z; [split; [reflexivity | discriminate] |].
  destruct (getDowHourDetroit now) as [dow hour]. simpl.
  split; [intros H; by destruct H |].
  intros _. split; [reflexivity |].
  intros key' Hne. rewrite lookup_insert_ne by congruence. reflexivity.
Qed.

(** X14. The daily cap: a valid report that passes the cooldown is refused exactly
    when the device already has 20 reports since the start of the day, and
    no request takes a device from at most 20 reports of the day to more. *)
Theorem daily_cap (now : Z) (db : Db) (body : Body) (device : string) :
  (countSince (reports db) device (startOfDayOf now) <= 20)%Z ->
  (fst (POST now db body) = DailyLimit
   <-> validBody body
       /\ cooldownWait now (lastCreatedAt (reports db) (venue_id body)
                                          (device_id body)) = None
       /\ (20 <= countSince (reports db) (device_id body) (startOfDayOf now))%Z)
  /\ (countSince (reports (snd (POST now db body))) device (startOfDayOf now)
      <= 20)%Z.
Proof.
  intros Hcap. split.
  - split.
    + intros H.
      assert (validBody body) as Hv
        by (apply (POST_passed now db body); rewrite H; discriminate).
      split; [exact Hv |].
      rewrite (POST_valid _ _ now db body Hv) in H.
      destruct (cooldownWait _ _); [discriminate |].
      destruct (Z.geb_spec (countSince (reports db) (device_id body)
                                       (startOfDayOf now)) 20);
        [split; [reflexivity | lia] | discriminate].
    + intros (Hv & Hc & Hn). rewrite (POST_valid _ _ now db body Hv), Hc.
      destruct (Z.geb_spec (countSince (reports db) (device_id body)
                                       (startOfDayOf now)) 20);
        [reflexivity | lia].
  - unfold ReportApi.POST.
    destruct (_ || _ || _); [exact Hcap |].
    destruct (negb _); [exact Hcap |].
    destruct (cooldownWait _ _); [exact Hcap |].
    destruct (Z.geb_spec (countSince (reports db) (device_id body)
                                     (startOfDayOf now)) 20) as [Hge | Hlt];
      [exact Hcap |].
    destruct (getDowHourDetroit now) as [dow hour]. simpl.
    rewrite countSince_app. unfold countSince at 2. simpl.
    destruct (bool_decide_reflect (device_id body = device)) as [<- | Hne]; simpl.
    + destruct (now >=? startOfDayOf now)%Z; simpl; lia.
    + lia.
Qed.

(** X15. After an accepted report, a further report of the same device for the
    same venue within the next 10 minutes is refused, with a wait between 1
    and 10 minutes, provided no stored report is dated after the accepted
    one. *)
Theorem resubmission_refused (t0 t1 : Z) (db : Db) (body body' : Body) :
  (forall r, In r (reports db) -> (ReportRow.created_at r <= t0)%Z) ->
  fst (POST t0 db body) = Accepted ->
  validBody body' ->
  venue_id body' = venue_id body -> device_id body' = device_id body ->
  (t0 <= t1 < t0 + 600000)%Z ->
  let db1 := snd (POST t0 db body) in
  lastCreatedAt (reports db1) (venue_id body) (device_id body) = Some t0
  /\ exists wait, POST t1 db1 body' = (SlowDown wait, db1) /\ (1 <= wait <= 10)%Z.
Proof.
  intros Hold Hacc Hv' Hven Hdev Ht db1.
  assert (validBody body) as Hv
    by (apply (POST_passed t0 db body); rewrite Hacc; discriminate).
  assert (reports db1
          = reports db ++ [{| ReportRow.venue_id := venue_id body; ReportRow.status := status body;
                              ReportRow.line_outside := line_outside body;
                              ReportRow.device_id := device_id body;
                              ReportRow.created_at := t0 |}]) as Hrows.
  { unfold db1. revert Hacc. rewrite (POST_valid _ _ t0 db body Hv).
    destruct (cooldownWait _ _); [discriminate |].
    destruct (countSince _ _ _ >=? 20)%Z; [discriminate |]. reflexivity. }
  assert (lastCreatedAt (reports db1) (venue_id body) (device_id body) = Some t0)
    as Hlast.
  { rewrite Hrows.
    apply (lastCreatedAt_appended (reports db)
             {| ReportRow.venue_id := venue_id body; ReportRow.status := status body;
                ReportRow.line_outside := line_outside body;
                ReportRow.device_id := device_id body; ReportRow.created_at := t0 |}).
    exact Hold. }
  split; [exact Hlast |].
  rewrite (POST_valid _ _ t1 db1 body' Hv'), Hven, Hdev, Hlast.
  destruct (cooldownWait t1 (Some t0)) as [wait |] eqn:Hw.
  - exists wait. split; [reflexivity | exact (cooldownWait_range _ _ _ Hw)].
  - exfalso. unfold cooldownWait in Hw.
    assert (minutesBetween t1 t0 < 10) as Hlt.
    { replace t0 with (t1 - (t1 - t0))%Z at 1 by lia.
      rewrite minutesBetween_after by lia.
      assert (IZR (t1 - t0) < IZR 600000) by (apply IZR_lt; lia). lra. }
    apply ltb_true in Hlt. rewrite Hlt in Hw. discriminate.
Qed.

End ReportExtras.

Lemma daily_cap_witness :
  let db := {| ReportApi.reports := []; ReportApi.venue_baselines := ∅ |} in
  let body := {| ReportApi.venue_id := "v1"; ReportApi.status := 2;
                 ReportApi.line_outside := false; ReportApi.device_id := "d1" |} in
  (ReportApi.countSince (ReportApi.reports db) "d1" 0 <= 20)%Z
  /\ (ReportApi.countSince
        (ReportApi.reports
           (snd (ReportApi.POST (fun _ => (0, 0)%Z) (fun _ => 0%Z) 1000 db body)))
        "d1" 0 <= 20)%Z.
Proof.
  intros db body.
  assert (ReportApi.countSince (ReportApi.reports db) "d1" 0 <= 20)%Z as Hcap
    by (unfold ReportApi.countSince; simpl; lia).
  split; [exact Hcap |].
  exact (proj2 (daily_cap (fun _ => (0, 0)%Z) (fun _ => 0%Z) 1000 db body "d1" Hcap)).
Defined.

Lemma resubmission_refused_witness :
  let db := {| ReportApi.reports := []; ReportApi.venue_baselines := ∅ |} in
  let body := {| ReportApi.venue_id := "v1"; ReportApi.status := 2;
                 ReportApi.line_outside := false; ReportApi.device_id := "d1" |} in
  let getDow := fun _ : Z => (0, 0)%Z in
  let startOf := fun _ : Z => 0%Z in
  fst (ReportApi.POST getDow startOf 1000 db body) = ReportApi.Accepted
  /\ validBody body
  /\ (1000 <= 541000 < 1000 + 600000)%Z
  /\ exists wait,
       ReportApi.POST getDow startOf 541000
         (snd (ReportApi.POST getDow startOf 1000 db body)) body
       = (ReportApi.SlowDown wait, snd (ReportApi.POST getDow startOf 1000 db body))
       /\ (1 <= wait <= 10)%Z.
Proof.
  intros db body getDow startOf.
  assert (forall r, In r (ReportApi.reports db) -> (ReportRow.created_at r <= 1000)%Z)
    as Hold by (intros r []).
  assert (fst (ReportApi.POST getDow startOf 1000 db body) = ReportApi.Accepted)
    as Hacc by reflexivity.
  assert (validBody body) as Hv.
  { unfold validBody. simpl. repeat split; try discriminate; lia. }
  assert (1000 <= 541000 < 1000 + 600000)%Z as Ht by lia.
  split; [exact Hacc | split; [exact Hv | split; [exact Ht |]]].
  exact (proj2 (resubmission_refused getDow startOf 1000 541000 db body body
                  Hold Hacc Hv eq_refl eq_refl Ht)).
Defined.

Lemma minutesAgo_integer_witness :
  (1000 <= 5000)%Z /\ Pages.minutesAgo 1000 5000 = 0%Z.
Proof.
  assert (1000 <= 5000)%Z as H by lia.
  split; [exact H |].
  exact (proj1 (proj2 (proj2 (minutesAgo_integer 1000 1000 5000))) H).
Defined.

Lemma report_store_effect_witness :
  let db := {| ReportApi.reports := []; ReportApi.venue_baselines := ∅ |} in
  let body := {| ReportApi.venue_id := "v1"; ReportApi.status := 2;
                 ReportApi.line_outside := true; ReportApi.device_id := "d1" |} in
  let getDow := fun _ : Z => (0, 0)%Z in
  let startOf := fun _ : Z => 0%Z in
  fst (ReportApi.POST getDow startOf 1000 db body) = ReportApi.Accepted
  /\ ReportApi.reports (snd (ReportApi.POST getDow startOf 1000 db body))
     = [{| ReportRow.venue_id := "v1"; ReportRow.status := 2; ReportRow.line_outside := true;
           ReportRow.device_id := "d1"; ReportRow.created_at := 1000 |}].
Proof.
  intros db body getDow startOf.
  assert (fst (ReportApi.POST getDow startOf 1000 db body) = ReportApi.Accepted)
    as Hacc by reflexivity.
  split; [exact Hacc |].
  exact (proj1 (proj2 (report_store_effect getDow startOf 1000 db body) Hacc)).
Defined.

(** ** The subscribe route: first subscription and what is left untouched *)

Section SubscribeExtras.
Import SubscribeApi.

(** X16. A first subscription for a triple inserts exactly one row for it:
    active, never triggered, and after all the rows already stored. *)
Theorem first_subscription (uniqueSubscription : bool) (newId : string) (now : Z)
    (table : list Sub.t) (body : Body) :
  validSubscribeBody body ->
  rowsOf (venue_id body) (device_id body) (threshold body) table = [] ->
  POST uniqueSubscription newId now table body
  = (Subscribed, table ++ [freshSubscription newId now body])
  /\ rowsOf (venue_id body) (device_id body) (threshold body)
            (snd (POST uniqueSubscription newId now table body))
     = [freshSubscription newId now body]
  /\ Sub.active (freshSubscription newId now body) = true
  /\ Sub.last_triggered_at (freshSubscription newId now body) = None.
Proof.
  intros Hv Hrows.
  assert (existsb (Sub.sameTriple (venue_id body) (device_id body) (threshold body))
            table = false) as Hex.
  { destruct (existsb _ table) eqn:Hex; [| reflexivity].
    apply existsb_exists in Hex as (s & Hs & Hsame).
    assert (In s (rowsOf (venue_id body) (device_id body) (threshold body) table))
      as Hin by (apply filter_In; by split).
    rewrite Hrows in Hin. destruct Hin. }
  assert (POST uniqueSubscription newId now table body
          = (Subscribed, table ++ [freshSubscription newId now body])) as HP.
  { rewrite (subscribe_POST_valid _ _ _ _ _ Hv), Hrows. simpl.
    unfold insert. simpl. rewrite Hex, andb_false_r. reflexivity. }
  split; [exact HP |]. rewrite HP. simpl. split; [| by split].
  unfold rowsOf. rewrite List.filter_app.
  fold (rowsOf (venue_id body) (device_id body) (threshold body) table).
  rewrite Hrows. simpl.
  rewrite (proj2 (sameTriple_spec _ _ _ (freshSubscription newId now body)));
    [reflexivity | by repeat split].
Qed.

Lemma first_subscription_witness :
  let body := {| venue_id := "v1"; device_id := "d1"; threshold := 1 |} in
  validSubscribeBody body
  /\ POST true "s1" 1000 [] body = (Subscribed, [freshSubscription "s1" 1000 body]).
Proof.
  intros body.
  assert (validSubscribeBody body) as Hv.
  { unfold validSubscribeBody. simpl. repeat split; try discriminate. by left. }
  split; [exact Hv |].
  exact (proj1 (first_subscription true "s1" 1000 [] body Hv eq_refl)).
Defined.

Lemma resubscribe_active_witness :
  let row := {| Sub.id := "s1"; Sub.venue_id := "v1"; Sub.device_id := "d1";
                Sub.threshold := 2; Sub.active := true; Sub.created_at := 0;
                Sub.last_triggered_at := Some 500%Z |} in
  let body := {| venue_id := "v1"; device_id := "d1"; threshold := 2 |} in
  validSubscribeBody body
  /\ NoDup (map Sub.id [row])
  /\ POST true "s2" 1000 [row] body = (Subscribed, [row]).
Proof.
  intros row body.
  assert (validSubscribeBody body) as Hv.
  { unfold validSubscribeBody. simpl. repeat split; try discriminate. by right. }
  assert (NoDup (map Sub.id [row])) as Hnd.
  { simpl. apply NoDup_cons. split; [apply not_elem_of_nil | apply NoDup_nil_2]. }
  split; [exact Hv | split; [exact Hnd |]].
  exact (resubscribe_active true "s2" 1000 [row] body row Hv Hnd eq_refl eq_refl).
Defined.

Lemma activate_lookup i table k s :
  table !! k = Some s ->
  exists s', activate i table !! k = Some s'
             /\ Sub.id s' = Sub.id s /\ Sub.venue_id s' = Sub.venue_id s
             /\ Sub.device_id s' = Sub.device_id s
             /\ Sub.threshold s' = Sub.threshold s
             /\ Sub.created_at s' = Sub.created_at s
             /\ Sub.last_triggered_at s' = Sub.last_triggered_at s
             /\ (Sub.active s = true -> Sub.active s' = true).
Proof.
  intros Hk. unfold activate.
  change (map ?f table) with (f <$> table).
  rewrite list_lookup_fmap, Hk. simpl. eexists. split; [reflexivity |].
  case_bool_decide; simpl; repeat split; auto.
Qed.

(** X18. Whatever the answer, the route deletes no row, deactivates none and
    leaves every field but [active] of the stored rows as it was; it adds at
    most one row, and none unless it answers success. *)
Theorem subscribe_keeps_rows (uniqueSubscription : bool) (newId : string) (now : Z)
    (table : list Sub.t) (body : Body) :
  let table' := snd (POST uniqueSubscription newId now table body) in
  (length table <= length table' <= length table + 1)%nat
  /\ (fst (POST uniqueSubscription newId now table body) <> Subscribed ->
      table' = table)
  /\ (forall k s, table !! k = Some s ->
        exists s', table' !! k = Some s'
                   /\ Sub.id s' = Sub.id s /\ Sub.venue_id s' = Sub.venue_id s
                   /\ Sub.device_id s' = Sub.device_id s
                   /\ Sub.threshold s' = Sub.threshold s
                   /\ Sub.created_at s' = Sub.created_at s
                   /\ Sub.last_triggered_at s' = Sub.last_triggered_at s
                   /\ (Sub.active s = true -> Sub.active s' = true)).
Proof.
  assert (forall k s, table !! k = Some s ->
            exists s', table !! k = Some s'
                       /\ Sub.id s' = Sub.id s /\ Sub.venue_id s' = Sub.venue_id s
                       /\ Sub.device_id s' = Sub.device_id s
                       /\ Sub.threshold s' = Sub.threshold s
                       /\ Sub.created_at s' = Sub.created_at s
                       /\ Sub.last_triggered_at s' = Sub.last_triggered_at s
                       /\ (Sub.active s = true -> Sub.active s' = true)) as Hsame.
  { intros k s Hk. exists s. repeat split; auto. }
  intros table'. unfold table', POST.
  destruct (_ || _ || _); simpl; [split; [lia | by split] |].
  destruct (negb _); simpl; [split; [lia | by split] |].
  destruct (maybeSingle _) as [| existing |]; simpl.
  - unfold insert. destruct (_ && _); simpl; [split; [lia | by split] |].
    split; [rewrite length_app; simpl; lia |]. split; [done |].
    intros k s Hk. exists s. split; [| repeat split; auto].
    apply lookup_app_l_Some, Hk.
  - split; [unfold activate; rewrite length_map; lia |]. split; [done |].
    intros k s Hk. by apply activate_lookup.
  - split; [lia | by split].
Qed.

Lemma subscribe_keeps_rows_witness :
  let row := {| Sub.id := "s1"; Sub.venue_id := "v1"; Sub.device_id := "d1";
                Sub.threshold := 2; Sub.active := true; Sub.created_at := 0;
                Sub.last_triggered_at := Some 500%Z |} in
  let body := {| venue_id := "v1"; device_id := "d1"; threshold := 3 |} in
  fst (POST true "s2" 1000 [row] body) <> Subscribed
  /\ snd (POST true "s2" 1000 [row] body) = [row].
Proof.
  intros row body.
  assert (fst (POST true "s2" 1000 [row] body) <> Subscribed) as H by discriminate.
  split; [exact H |].
  exact (proj1 (proj2 (subscribe_keeps_rows true "s2" 1000 [row] body)) H).
Defined.

End SubscribeExtras.

(** ** The alert run: thresholds, counters, grouping, query and store *)

Section RunExtras.
Local Open Scope Z_scope.
Import AlertsRun.





(** X20. A subscription that is not active is never triggered: the run records no
    update for an id all of whose rows are inactive. *)
Theorem inactive_never_fires (sinceNow now : Z) (clock : nat -> Readings) (db : Db)
    (i : string) :
  (forall s, In s (alert_subscriptions db) -> Sub.id s = i -> Sub.active s = false) ->
  forall stamp, ~ In (UpdateLastTriggered i stamp) (snd (POST sinceNow now clock db)).
Proof.
  intros Hin stamp. unfold POST.
  destruct (_ =? 0); simpl; [tauto |].
  apply (loop_invariant
           (fun st => ~ In (UpdateLastTriggered i stamp) (trace st)));
    [| simpl; tauto].
  intros s rd st' Hs Hst'.
  match goal with
  | |- context [step ?n ?r ?g ?v ?x ?y] =>
      destruct (step_extends n r g v x y) as (es & -> & _ & Hes)
  end.
  intros [H | H]%in_app_or; [by apply Hst' |].
  apply Hes in H as [Hid _].
  apply filter_In in Hs as [Hs Hact].
  rewrite (Hin s Hs (eq_sym Hid)) in Hact. discriminate.
Qed.

Lemma inactive_never_fires_witness :
  let sub := {| Sub.id := "s1"; Sub.venue_id := "v1"; Sub.device_id := "d1";
                Sub.threshold := 2; Sub.active := false; Sub.created_at := 0;
                Sub.last_triggered_at := None |} in
  let db := {| alert_subscriptions := [sub]; venues := []; reports := [] |} in
  let clock := fun _ : nat => {| score_now := 0; stamp_now := 0 |} in
  (forall s, In s (alert_subscriptions db) -> Sub.id s = "s1" -> Sub.active s = false)
  /\ ~ In (UpdateLastTriggered "s1" 0) (snd (POST 0 0 clock db)).
Proof.
  intros sub db clock.
  assert (forall s, In s (alert_subscriptions db) -> Sub.id s = "s1" ->
                    Sub.active s = false) as H.
  { intros s [<- | []] _. reflexivity. }
  split; [exact H | exact (inactive_never_fires 0 0 clock db "s1" H 0)].
Defined.

(** X21. The grouping gives each venue its own reports, in the order of the
    query, and nothing to a venue without reports. *)
Theorem groupByVenue_lookup (rows : list ReportRow.t) (venue : string) :
  default [] (groupByVenue rows !! venue)
  = map reportOf (List.filter (fun r => bool_decide (ReportRow.venue_id r = venue)) rows)
  /\ (groupByVenue rows !! venue = None
      <-> forall r, In r rows -> ReportRow.venue_id r <> venue).
Proof.
  unfold groupByVenue.
  assert (forall (m : gmap string (list Report)),
             let m' := fold_left
                         (fun m r =>
                            <[ReportRow.venue_id r :=
                                default [] (m !! ReportRow.venue_id r)
                                ++ [{| status := ReportRow.status r;
                                       created_at := ReportRow.created_at r |}]]> m)
                         rows m in
             default [] (m' !! venue)
             = default [] (m !! venue)
               ++ map reportOf
                    (List.filter (fun r => bool_decide (ReportRow.venue_id r = venue)) rows)
             /\ (m' !! venue = None
                 <-> m !! venue = None
                     /\ forall r, In r rows -> ReportRow.venue_id r <> venue)) as Hgen.
  { induction rows as [|r rows IH]; intros m; simpl.
    - rewrite app_nil_r. split; [reflexivity | tauto].
    - destruct (IH (<[ReportRow.venue_id r :=
                        default [] (m !! ReportRow.venue_id r)
                        ++ [{| status := ReportRow.status r;
                               created_at := ReportRow.created_at r |}]]> m))
        as [IH1 IH2].
      split.
      + rewrite IH1. rewrite lookup_insert.
        destruct (bool_decide_reflect (ReportRow.venue_id r = venue)) as [Heq | Hne].
        * rewrite decide_True by exact Heq. simpl. rewrite Heq, <- app_assoc.
          reflexivity.
        * rewrite decide_False by exact Hne. reflexivity.
      + rewrite IH2. rewrite lookup_insert.
        destruct (decide (ReportRow.venue_id r = venue)) as [Heq | Hne].
        * split; [intros [H _]; discriminate |].
          intros [_ H]. exfalso. apply (H r); [by left | exact Heq].
        * split.
          -- intros [Hm H]. split; [exact Hm |]. intros r' [<- | Hr']; auto.
          -- intros [Hm H]. split; [exact Hm |]. intros r' Hr'. apply H. by right. }
  destruct (Hgen ∅) as [H1 H2]. split.
  - rewrite H1, lookup_empty. reflexivity.
  - rewrite H2, lookup_empty. tauto.
Qed.

End RunExtras.

Section RunStore.
Local Open Scope Z_scope.
Import AlertsRun.

Lemma insertDesc_sorted r rows : sortedDesc rows -> sortedDesc (insertDesc r rows).
Proof.
  induction rows as [|x rows IH]; simpl.
  - intros _. split; [intros ? [] | exact I].
  - intros [Hx Hs]. destruct (Z.ltb_spec (ReportRow.created_at x) (ReportRow.created_at r)).
    + simpl. split; [| by split].
      intros y [<- | Hy]; [lia |]. specialize (Hx y Hy). lia.
    + simpl. split; [| by apply IH].
      intros y [-> | Hy]%In_insertDesc; [lia | by apply Hx].
Qed.

Lemma orderDesc_sorted rows : sortedDesc (orderDesc rows).
Proof.
  induction rows as [|r rows IH]; simpl; [exact I | by apply insertDesc_sorted].
Qed.

Lemma take_sorted k rows : sortedDesc rows -> sortedDesc (take k rows).
Proof.
  revert k. induction rows as [|r rows IH]; intros [|k]; simpl; try tauto.
  intros [Hr Hs]. split; [| by apply IH].
  intros x Hx%In_take. by apply Hr.
Qed.

Lemma insertDesc_length r rows : length (insertDesc r rows) = S (length rows).
Proof.
  induction rows as [|x rows IH]; simpl; [reflexivity |].
  destruct (_ <? _); simpl; [reflexivity | by rewrite IH].
Qed.

Lemma orderDesc_length rows : length (orderDesc rows) = length rows.
Proof.
  induction rows as [|r rows IH]; simpl; [reflexivity |].
  by rewrite insertDesc_length, IH.
Qed.

Lemma filter_length_le {A} (p : A -> bool) (l : list A) :
  (length (List.filter p l) <= length l)%nat.
Proof.
  induction l as [|x l IH]; simpl; [lia |]. destruct (p x); simpl; lia.
Qed.

(** X22. The bulk report query returns at most 2000 rows, newest first, all of
    them stored rows of the requested venues dated within the last 3 hours;
    when the table holds at most 2000 rows it returns every such row. *)
Theorem recent_reports_query (sinceNow : Z) (venueIds : list string)
    (rows : list ReportRow.t) :
  let result := recentReports sinceNow venueIds rows in
  sortedDesc result
  /\ (length result <= 2000)%nat
  /\ (forall r, In r result ->
        In r rows /\ ReportRow.venue_id r ∈ venueIds
        /\ sinceNow - 10800000 <= ReportRow.created_at r)
  /\ ((length rows <= 2000)%nat ->
      forall r, In r rows -> ReportRow.venue_id r ∈ venueIds ->
                sinceNow - 10800000 <= ReportRow.created_at r -> In r result).
Proof.
  intros result. unfold result, recentReports.
  split; [apply take_sorted, orderDesc_sorted |].
  split; [rewrite length_take; lia |]. split.
  - intros r Hr%In_take%In_orderDesc%filter_In.
    destruct Hr as [Hin H]. apply andb_true_iff in H as [Hv Ht].
    apply bool_decide_eq_true in Hv. split; [exact Hin | split; [exact Hv | lia]].
  - intros Hlen r Hr Hv Ht. rewrite take_ge.
    + apply In_orderDesc, filter_In. split; [exact Hr |].
      apply andb_true_iff. split; [by apply bool_decide_eq_true | lia].
    + rewrite orderDesc_length.
      pose proof (filter_length_le
                    (fun r => bool_decide (ReportRow.venue_id r ∈ venueIds)
                              && (ReportRow.created_at r >=? sinceNow - 3 * 60 * 60 * 1000))
                    rows). lia.
Qed.

Lemma recent_reports_query_witness :
  let row := {| ReportRow.venue_id := "v1"; ReportRow.status := 2; ReportRow.line_outside := false;
                ReportRow.device_id := "d1"; ReportRow.created_at := 20000000 |} in
  (length [row] <= 2000)%nat
  /\ In row (recentReports 20000001 ["v1"] [row]).
Proof.
  intros row.
  assert (length [row] <= 2000)%nat as Hlen by (simpl; lia).
  split; [exact Hlen |].
  apply (proj2 (proj2 (proj2 (recent_reports_query 20000001 ["v1"] [row]))) Hlen).
  - by left.
  - apply list_elem_of_In. by left.
  - simpl. lia.
Defined.

Lemma applyTrace_map {A} (f : Sub.t -> A) es table :
  (forall s stamp,
      f {| Sub.id := Sub.id s; Sub.venue_id := Sub.venue_id s;
           Sub.device_id := Sub.device_id s; Sub.threshold := Sub.threshold s;
           Sub.active := Sub.active s; Sub.created_at := Sub.created_at s;
           Sub.last_triggered_at := Some stamp |} = f s) ->
  map f (applyTrace es table) = map f table.
Proof.
  intros Hf. unfold applyTrace. revert table.
  induction es as [|e es IH]; intros table; simpl; [reflexivity |].
  rewrite IH. destruct e as [? ? ? | i stamp]; simpl; [reflexivity |].
  unfold setLastTriggered. rewrite map_map. apply map_ext.
  intros s. case_bool_decide; [apply Hf | reflexivity].
Qed.

(** X23. The effects of a run change no stored field other than the
    last-triggered time: ids, venues, devices, thresholds, active flags and
    creation dates are as they were, row by row. *)
Theorem run_mutates_only_last_triggered (es : list Effect) (table : list Sub.t) :
  map Sub.id (applyTrace es table) = map Sub.id table
  /\ map Sub.venue_id (applyTrace es table) = map Sub.venue_id table
  /\ map Sub.device_id (applyTrace es table) = map Sub.device_id table
  /\ map Sub.threshold (applyTrace es table) = map Sub.threshold table
  /\ map Sub.active (applyTrace es table) = map Sub.active table
  /\ map Sub.created_at (applyTrace es table) = map Sub.created_at table
  /\ length (applyTrace es table) = length table.
Proof.
  repeat split; try (apply applyTrace_map; reflexivity).
  rewrite <- (length_map Sub.id (applyTrace es table)), <- (length_map Sub.id table).
  f_equal. apply applyTrace_map. reflexivity.
Qed.

(** A stored row after a trace: stamped by an update of the trace for its
    id, or a row of the former table whose id the trace does not update. *)
Lemma applyTrace_row es table s' :
  In s' (applyTrace es table) ->
  (exists stamp, In (UpdateLastTriggered (Sub.id s') stamp) es
                 /\ Sub.last_triggered_at s' = Some stamp)
  \/ (In s' table /\ forall stamp, ~ In (UpdateLastTriggered (Sub.id s') stamp) es).
Proof.
  unfold applyTrace. revert table.
  induction es as [|e es IH]; intros table; simpl.
  - intros H. right. split; [exact H | tauto].
  - intros [(stamp & Hin & Hlast) | [Hin Hno]]%IH.
    + left. exists stamp. split; [by right | exact Hlast].
    + destruct e as [? ? ? | i stamp]; simpl in Hin.
      * right. split; [exact Hin |].
        intros stamp [H | H]; [discriminate | by apply (Hno stamp)].
      * unfold setLastTriggered in Hin. apply in_map_iff in Hin as (s & Hs' & Hs).
        case_bool_decide as Hi; subst s'.
        -- left. exists stamp. simpl. split; [left; by rewrite Hi | reflexivity].
        -- right. split; [exact Hs |].
           intros stamp' [H | H]; [| by apply (Hno stamp')].
           injection H as H _. by apply Hi.
Qed.

(** X24. An alert is not repeated within the hour: a subscription stamped by one
    run gets no update from a run that starts less than 60 minutes after the
    stamps of the first and works on the store the first run left. *)
Theorem no_repeat_within_hour (sinceNow1 now1 sinceNow2 now2 : Z)
    (clock1 clock2 : nat -> Readings) (db db2 : Db) (i : string) :
  alert_subscriptions db2
  = applyTrace (snd (POST sinceNow1 now1 clock1 db)) (alert_subscriptions db) ->
  (forall j stamp, In (UpdateLastTriggered j stamp) (snd (POST sinceNow1 now1 clock1 db)) ->
                   now2 - stamp < 3600000) ->
  (exists stamp, In (UpdateLastTriggered i stamp) (snd (POST sinceNow1 now1 clock1 db))) ->
  forall stamp', ~ In (UpdateLastTriggered i stamp') (snd (POST sinceNow2 now2 clock2 db2)).
Proof.
  intros Hstore Hrecent [stamp Hfired] stamp'. unfold POST at 1.
  destruct (_ =? 0); simpl; [tauto |].
  apply (loop_invariant
           (fun st => ~ In (UpdateLastTriggered i stamp') (trace st)));
    [| simpl; tauto].
  intros s rd st' Hs Hst'.
  match goal with
  | |- context [step ?n ?r ?g ?v ?x ?y] =>
      destruct (step_extends n r g v x y) as (es & -> & _ & Hes)
  end.
  intros [H | H]%in_app_or; [by apply Hst' |].
  apply Hes in H as [Hid Hout].
  apply filter_In in Hs as [Hs _]. rewrite Hstore in Hs.
  apply applyTrace_row in Hs as [(st1 & Hin1 & Hlast) | [_ Hno]].
  - assert (inCooldown now2 s = true) as Hc.
    { apply inCooldown_spec. exists st1. split; [exact Hlast |].
      exact (Hrecent _ _ Hin1). }
    congruence.
  - apply (Hno stamp). rewrite <- Hid. exact Hfired.
Qed.

End RunStore.

Section RunStoreWitness.
Local Open Scope Z_scope.
Import AlertsRun.

(** A threshold-2 subscription out of cooldown whose venue has no entry in
    the grouping fires with the label Medium. *)
Lemma step_without_reports now rd rbv vm sub st :
  rbv !! Sub.venue_id sub = None ->
  inCooldown now sub = false ->
  Sub.threshold sub = 2 ->
  step now rd rbv vm sub st
  = {| count := count st + 1;
       trace := trace st
         ++ [ConsoleLog (default "Unknown venue" (vm !! Sub.venue_id sub))
                        Medium (Sub.device_id sub);
             UpdateLastTriggered (Sub.id sub) (stamp_now rd)] |}.
Proof.
  intros Hnone Hout Hthr. unfold step.
  rewrite Hout, Hnone. simpl default.
  rewrite computeDecayedScore_nil, labelFromScore_2, Hthr. reflexivity.
Qed.

Lemma no_repeat_within_hour_witness :
  let sub := {| Sub.id := "s1"; Sub.venue_id := "v1"; Sub.device_id := "d1";
                Sub.threshold := 2; Sub.active := true; Sub.created_at := 0;
                Sub.last_triggered_at := None |} in
  let db := {| alert_subscriptions := [sub]; venues := []; reports := [] |} in
  let clock := fun _ : nat => {| score_now := 1000; stamp_now := 1001 |} in
  let db2 := {| alert_subscriptions :=
                  applyTrace (snd (POST 999 1000 clock db)) (alert_subscriptions db);
                venues := []; reports := [] |} in
  In (UpdateLastTriggered "s1" 1001) (snd (POST 999 1000 clock db))
  /\ forall stamp',
       ~ In (UpdateLastTriggered "s1" stamp') (snd (POST 1799000 1800000 clock db2)).
Proof.
  intros sub db clock db2.
  assert (snd (POST 999 1000 clock db)
          = [ConsoleLog "Unknown venue" Medium "d1"; UpdateLastTriggered "s1" 1001])
    as Hrun.
  { unfold POST.
    change (List.filter Sub.active (alert_subscriptions db)) with [sub].
    change (Z.of_nat (length [sub]) =? 0) with false. cbv iota.
    cbn [loop snd].
    rewrite step_without_reports; [reflexivity | | reflexivity | reflexivity].
    change (recentReports 999 (remove_dups (map Sub.venue_id [sub])) (reports db))
      with (@nil ReportRow.t).
    apply lookup_empty. }
  assert (In (UpdateLastTriggered "s1" 1001) (snd (POST 999 1000 clock db))) as Hfired.
  { rewrite Hrun. right. by left. }
  split; [exact Hfired |].
  apply (no_repeat_within_hour 999 1000 1799000 1800000 clock clock db db2 "s1").
  - reflexivity.
  - intros j stamp Hin. rewrite Hrun in Hin.
    destruct Hin as [H | [H | []]]; [discriminate |].
    injection H as _ <-. lia.
  - exists 1001. exact Hfired.
Defined.

End RunStoreWitness.

(** ** The admin metrics route and the device id *)

Section AdminExtras.
Local Open Scope Z_scope.
Import AdminMetrics.

(** X25. The metrics are served exactly when the configured key is set and not
    empty and the provided key equals it. The provided key is the query key
    unless that is absent or empty, so a wrong query key is refused whatever
    the header; with no key configured every request is refused. *)
Theorem admin_authorization (expectedKey queryKey headerKey : option string) :
  (authorized expectedKey queryKey headerKey = true
   <-> exists k, expectedKey = Some k /\ k <> ""
                 /\ orElse queryKey headerKey = Some k)
  /\ (forall q, queryKey = Some q -> q <> "" -> expectedKey <> Some q ->
                authorized expectedKey queryKey headerKey = false)
  /\ authorized None queryKey headerKey = false
  /\ authorized (Some "") queryKey headerKey = false
  /\ authorized expectedKey (Some "") headerKey = authorized expectedKey None headerKey.
Proof.
  assert (forall e q h,
             authorized e q h = true
             <-> exists k, e = Some k /\ k <> "" /\ orElse q h = Some k) as Hauth.
  { intros e q h. unfold authorized. destruct e as [k |]; simpl.
    - destruct (bool_decide_reflect (k = "")) as [-> | Hk]; simpl.
      + split; [discriminate | intros (k & [= <-] & Hk & _); done].
      + rewrite negb_involutive, bool_decide_eq_true. split.
        * intros ->. eauto.
        * intros (k' & [= <-] & _ & ->). reflexivity.
    - split; [discriminate | intros (k & ? & _); discriminate]. }
  split; [apply Hauth |]. split; [| split; [reflexivity | split; [reflexivity |]]].
  - intros q -> Hq Hne.
    destruct (authorized expectedKey (Some q) headerKey) eqn:Ha; [| reflexivity].
    apply Hauth in Ha as (k & -> & _ & Hk). simpl in Hk.
    rewrite bool_decide_eq_false_2 in Hk by exact Hq. congruence.
  - reflexivity.
Qed.

Lemma admin_authorization_witness :
  authorized (Some "secret") (Some "guess") (Some "secret") = false.
Proof.
  apply (proj1 (proj2 (admin_authorization (Some "secret") (Some "guess")
                         (Some "secret"))) "guess");
    [reflexivity | discriminate | discriminate].
Defined.

Lemma percentOf_bounds views total :
  0 <= views <= total -> 0 < total -> 0 <= percentOf views total <= 100.
Proof.
  intros [Hv0 Hvt] Ht. unfold percentOf.
  destruct (Z.gtb_spec total 0); [| lia].
  pose proof (round_bounds (IZR views / IZR total * 100)) as [Hlo Hhi].
  set (k := JsMath.round (IZR views / IZR total * 100)) in *. clearbody k.
  apply IZR_le in Hv0, Hvt. apply IZR_lt in Ht.
  assert (0 <= IZR views / IZR total * 100 <= 100)%R as [Hx0 Hx1].
  { split.
    - apply Rmult_le_pos; [| lra]. apply Rmult_le_pos; [lra |].
      left. by apply Rinv_0_lt_compat.
    - apply Rmult_le_reg_r with (IZR total); [lra |].
      replace (IZR views / IZR total * 100 * IZR total)%R with (IZR views * 100)%R
        by (field; lra).
      lra. }
  assert (IZR (-1) < IZR k)%R as H1 by lra.
  assert (IZR k < IZR 101)%R as H2 by lra.
  apply lt_IZR in H1, H2. lia.
Qed.

Lemma percentOf_split a b :
  0 <= a -> 0 <= b -> 0 < a + b ->
  percentOf a (a + b) + percentOf b (a + b) = 100
  \/ percentOf a (a + b) + percentOf b (a + b) = 101.
Proof.
  intros Ha Hb Ht. unfold percentOf.
  destruct (Z.gtb_spec (a + b) 0); [| lia].
  pose proof (round_bounds (IZR a / IZR (a + b) * 100)) as [Hlo1 Hhi1].
  pose proof (round_bounds (IZR b / IZR (a + b) * 100)) as [Hlo2 Hhi2].
  set (k1 := JsMath.round (IZR a / IZR (a + b) * 100)) in *.
  set (k2 := JsMath.round (IZR b / IZR (a + b) * 100)) in *. clearbody k1 k2.
  assert (IZR a / IZR (a + b) * 100 + IZR b / IZR (a + b) * 100 = 100)%R as Hsum.
  { apply IZR_lt in Ht. rewrite plus_IZR in *. field. lra. }
  assert (IZR 99 < IZR (k1 + k2))%R as H1 by (rewrite plus_IZR; lra).
  assert (IZR (k1 + k2) < IZR 102)%R as H2 by (rewrite plus_IZR; lra).
  apply lt_IZR in H1, H2. lia.
Qed.

Lemma views_counts (eventsList : list Event) :
  0 <= homepageViews eventsList /\ 0 <= venueViews eventsList
  /\ homepageViews eventsList + venueViews eventsList <= pageViews eventsList.
Proof.
  unfold homepageViews, venueViews, pageViews.
  split; [lia | split; [lia |]].
  induction eventsList as [|e l IH]; simpl; [lia |].
  destruct (bool_decide_reflect (event e = "page_view_home")) as [-> | Hh].
  - change (String.prefix "page_view_" "page_view_home") with true.
    change (bool_decide ("page_view_home" = "page_view_venue")) with false.
    simpl length. lia.
  - destruct (bool_decide_reflect (event e = "page_view_venue")) as [-> | Hv].
    + change (String.prefix "page_view_" "page_view_venue") with true.
      simpl length. lia.
    + destruct (String.prefix "page_view_" (event e)); simpl length; lia.
Qed.

(** X26. The pageview split: home and venue views are among the pageviews; with
    no such view both shares are 0; otherwise each share is a whole
    percentage between 0 and 100 and the two add up to 100 or, when both
    round up from a half, to 101. *)
Theorem pageview_split (eventsList : list Event) :
  let home := homepageViews eventsList in
  let venue := venueViews eventsList in
  home + venue <= pageViews eventsList
  /\ (home + venue = 0 ->
      venuePageviewPercent eventsList = 0 /\ homepagePageviewPercent eventsList = 0)
  /\ (0 < home + venue ->
      0 <= venuePageviewPercent eventsList <= 100
      /\ 0 <= homepagePageviewPercent eventsList <= 100
      /\ (venuePageviewPercent eventsList + homepagePageviewPercent eventsList = 100
          \/ venuePageviewPercent eventsList + homepagePageviewPercent eventsList
             = 101)).
Proof.
  intros home venue.
  destruct (views_counts eventsList) as (Hh & Hv & Hle).
  fold home in Hh, Hle. fold venue in Hv, Hle.
  unfold venuePageviewPercent, homepagePageviewPercent. fold home venue.
  split; [exact Hle | split].
  - intros H0. unfold percentOf. rewrite H0. by split.
  - intros Hpos.
    split; [apply percentOf_bounds; lia |].
    split; [apply percentOf_bounds; lia |].
    destruct (percentOf_split home venue Hh Hv Hpos) as [H | H]; lia.
Qed.

Lemma pageview_split_witness :
  let e := {| event := "page_view_home"; venue_id := None; device_id := "d1";
              created_at := 0 |} in
  0 < homepageViews [e] + venueViews [e]
  /\ 0 <= homepagePageviewPercent [e] <= 100.
Proof.
  intros e.
  assert (0 < homepageViews [e] + venueViews [e]) as H by (vm_compute; reflexivity).
  split; [exact H |].
  exact (proj1 (proj2 (proj2 (proj2 (pageview_split [e])) H))).
Defined.

End AdminExtras.

Section DeviceIdExtras.
Import DeviceId.

(** X27. The device id is stable: once a call has returned a non-empty id, every
    later call in the browser returns the same id and leaves the storage as
    it is, whatever fresh id it could have drawn. Outside the browser the
    call throws. *)
Theorem device_id_stable (randomUUID randomUUID' id : string)
    (localStorage localStorage' : gmap string string) :
  getDeviceId true randomUUID localStorage = Some (id, localStorage') ->
  id <> "" ->
  getDeviceId true randomUUID' localStorage' = Some (id, localStorage')
  /\ localStorage' !! "bar_oracle_device_id" = Some id
  /\ getDeviceId false randomUUID localStorage = None.
Proof.
  intros Hcall Hid.
  assert (localStorage' !! "bar_oracle_device_id" = Some id) as Hstored.
  { unfold getDeviceId in Hcall. simpl in Hcall.
    destruct (localStorage !! "bar_oracle_device_id") as [existing |] eqn:Hex.
    - destruct (bool_decide_reflect (existing = "")) as [He | He].
      + injection Hcall as <- <-. apply lookup_insert_eq.
      + injection Hcall as <- <-. exact Hex.
    - injection Hcall as <- <-. apply lookup_insert_eq. }
  split; [| split; [exact Hstored | reflexivity]].
  unfold getDeviceId. simpl. rewrite Hstored.
  rewrite bool_decide_eq_false_2 by exact Hid. reflexivity.
Qed.

Lemma device_id_stable_witness :
  getDeviceId true "uuid-1" ∅ = Some ("uuid-1", <["bar_oracle_device_id" := "uuid-1"]> ∅)
  /\ "uuid-1" <> ""
  /\ getDeviceId true "uuid-2" (<["bar_oracle_device_id" := "uuid-1"]> ∅)
     = Some ("uuid-1", <["bar_oracle_device_id" := "uuid-1"]> ∅).
Proof.
  assert (getDeviceId true "uuid-1" ∅
          = Some ("uuid-1", <["bar_oracle_device_id" := "uuid-1"]> ∅)) as Hcall.
  { unfold getDeviceId. simpl. rewrite lookup_empty. reflexivity. }
  assert ("uuid-1" <> "") as Hid by discriminate.
  split; [exact Hcall | split; [exact Hid |]].
  exact (proj1 (device_id_stable "uuid-1" "uuid-2" "uuid-1" ∅ _ Hcall Hid)).
Defined.

End DeviceIdExtras.

(** ** Weights, extremes, isolation of the cooldown, the prediction row *)

Section MoreExtras.
Local Open Scope R_scope.
Import Scoring.

(** X28. No report is ever discarded: whatever the consensus, a report keeps
    between a quarter and the whole of its decay weight, which is positive,
    is 1 for a report made now and is smaller the older the report. *)
Theorem weights_never_zero (now consensusNum : Z) (r r' : Report) :
  let base := baseWeightOf (ageMinOf now (created_at r)) in
  0 < base / 4 <= dampedWeight now consensusNum r
  /\ dampedWeight now consensusNum r <= base
  /\ baseWeightOf 0 = 1
  /\ ((created_at r' < created_at r)%Z ->
      baseWeightOf (ageMinOf now (created_at r')) < base).
Proof.
  intros base.
  pose proof (baseWeightOf_pos (ageMinOf now (created_at r))) as Hb. fold base in Hb.
  assert (dampedWeight now consensusNum r = base * 0.25
          \/ dampedWeight now consensusNum r = base * 1) as Hw.
  { unfold dampedWeight. fold base.
    destruct (outlierMultiplier_cases (status r) consensusNum) as [[_ ->] | [_ ->]];
      auto. }
  split; [destruct Hw as [-> | ->]; lra |].
  split; [destruct Hw as [-> | ->]; lra |].
  split.
  - unfold baseWeightOf. replace (- 0 / 30) with 0 by lra. apply exp_0.
  - intros Hlt. unfold base, baseWeightOf. apply exp_increasing.
    unfold ageMinOf.
    assert (IZR (now - created_at r) < IZR (now - created_at r'))
      by (apply IZR_lt; lia).
    lra.
Qed.

Lemma weights_never_zero_witness :
  let r := {| status := 4; created_at := 60000 |} in
  let r' := {| status := 1; created_at := 0 |} in
  (created_at r' < created_at r)%Z
  /\ baseWeightOf (ageMinOf 120000 (created_at r'))
     < baseWeightOf (ageMinOf 120000 (created_at r)).
Proof.
  intros r r'.
  assert (created_at r' < created_at r)%Z as H by (simpl; lia).
  split; [exact H |].
  exact (proj2 (proj2 (proj2 (weights_never_zero 120000 1 r r'))) H).
Defined.

(** X29. The signal of a non-empty list lies between the lowest and the highest
    status reported. *)
Theorem score_between_extremes (now lo hi : Z) (reports : list Report) :
  reports <> [] ->
  Forall (fun r => (lo <= status r <= hi)%Z) reports ->
  IZR lo <= computeDecayedScore now reports <= IZR hi.
Proof.
  intros Hne Hall. rewrite computeDecayedScore_sum.
  set (c := consensusOf now reports).
  assert (0 < sumOf (dampedWeight now c) reports) as HW.
  { apply sumOf_positive; [apply dampedWeight_pos | exact Hne]. }
  pose proof (sumOf_between (dampedWeight now c) (fun r => IZR (status r))
                (fun r => (lo <= status r <= hi)%Z) (IZR lo) (IZR hi) reports) as Hb.
  destruct Hb as [Hlo Hhi]; [| | exact Hall |].
  - intros r. left. apply dampedWeight_pos.
  - intros r [H1 H2]. split; apply IZR_le; assumption.
  - js_case; [| lra].
    split; apply Rmult_le_reg_r with (1 := HW); unfold Rdiv;
      rewrite Rmult_assoc, Rinv_l by lra; lra.
Qed.

Lemma score_between_extremes_witness :
  let reports := [ {| status := 2; created_at := 0 |};
                   {| status := 3; created_at := 60000 |} ] in
  reports <> [] /\ 2 <= computeDecayedScore 120000 reports <= 3.
Proof.
  intros reports.
  assert (reports <> []) as Hne by discriminate.
  split; [exact Hne |].
  apply (score_between_extremes 120000 2 3 reports Hne).
  repeat constructor; simpl; lia.
Defined.

(** X30. The cooldown is per device and venue: a stored report of another device
    or for another venue changes neither the last report nor the wait of
    this device for this venue. *)
Theorem cooldown_is_per_device_and_venue (now : Z) (rows : list ReportRow.t) (row : ReportRow.t)
    (venue device : string) :
  ReportRow.venue_id row <> venue \/ ReportRow.device_id row <> device ->
  ReportApi.lastCreatedAt (rows ++ [row]) venue device
  = ReportApi.lastCreatedAt rows venue device
  /\ ReportApi.cooldownWait now (ReportApi.lastCreatedAt (rows ++ [row]) venue device)
     = ReportApi.cooldownWait now (ReportApi.lastCreatedAt rows venue device).
Proof.
  intros Hother.
  assert (ReportApi.lastCreatedAt (rows ++ [row]) venue device
          = ReportApi.lastCreatedAt rows venue device) as Hl.
  { unfold ReportApi.lastCreatedAt. rewrite List.filter_app. simpl.
    assert (bool_decide (ReportRow.venue_id row = venue)
            && bool_decide (ReportRow.device_id row = device) = false) as ->.
    { apply andb_false_iff.
      destruct Hother as [H | H]; [left | right]; by apply bool_decide_eq_false_2. }
    rewrite app_nil_r. reflexivity. }
  split; [exact Hl | by rewrite Hl].
Qed.

Lemma cooldown_is_per_device_and_venue_witness :
  let row := {| ReportRow.venue_id := "v1"; ReportRow.status := 2; ReportRow.line_outside := false;
                ReportRow.device_id := "d2"; ReportRow.created_at := 1000 |} in
  (ReportRow.venue_id row <> "v1" \/ ReportRow.device_id row <> "d1")
  /\ ReportApi.lastCreatedAt ([] ++ [row]) "v1" "d1" = None.
Proof.
  intros row.
  assert (ReportRow.venue_id row <> "v1" \/ ReportRow.device_id row <> "d1") as H
    by (right; discriminate).
  split; [exact H |].
  exact (proj1 (cooldown_is_per_device_and_venue 0 [] row "v1" "d1" H)).
Defined.

(** The prediction row never throws. Without baseline rows, or when the
    baseline query failed, nothing is predicted from history: a failed query
    gives no row, and an empty result gives the current label at each of the
    horizons 30, 60 and 90. With rows, each horizon is predicted from the
    first row of the bucket of now + horizon. *)
Theorem venue_page_predictions (getDowHourDetroit : Z -> Z * Z) (now : Z) (score : R)
    (baselines : list VenuePage.BaselineRow) :
  let baseOf min :=
    option_map VenuePage.mean_score
      (List.find (fun x => (VenuePage.dow x =? (getDowHourDetroit (now + min * 60000)).1)%Z
                           && (VenuePage.hour x
                               =? (getDowHourDetroit (now + min * 60000)).2)%Z)
                 baselines) in
  VenuePage.predictions getDowHourDetroit now score (Some baselines)
  = VenuePage.Predictions [ (30%Z, predictLabel score (baseOf 30%Z));
                            (60%Z, predictLabel score (baseOf 60%Z));
                            (90%Z, predictLabel score (baseOf 90%Z)) ]
  /\ VenuePage.predictions getDowHourDetroit now score (Some [])
     = VenuePage.Predictions [ (30%Z, labelFromScore score);
                               (60%Z, labelFromScore score);
                               (90%Z, labelFromScore score) ]
  /\ VenuePage.predictions getDowHourDetroit now score None = VenuePage.NoPredictions
  /\ (forall rows,
        VenuePage.predictions getDowHourDetroit now score rows <> VenuePage.Threw).
Proof.
  intros baseOf. split; [| split; [| split]]; try reflexivity.
  intros [rows |]; discriminate.
Qed.

End MoreExtras.
